(** * The batchflow tutorial notebooks

    The two sources are Jupyter notebooks (tutorial 03, "ready to use
    model", for PyTorch and for TensorFlow).  Their code cells are short
    Python programs that assemble a pipeline as a chain of method calls and
    then run it; the recorded cell outputs are part of the files.

    The development has these layers:
    - [Py]: the Python expressions, statements and recorded outputs the
      notebooks are made of;
    - [Torch], [TF]: the two notebooks, cell by cell;
    - [Nb], [Facts]: what is read off a notebook (its pipelines, their
      steps, the [run] calls, the recorded metrics);
    - [Engine]: the pipeline engine the notebooks call into;
    - [Program]: the notebooks run on the engine. *)

From Stdlib Require Import ZArith QArith Lia.
From stdpp Require Import base option list strings gmap.

Set Warnings "-register-all".
Local Open Scope string_scope.
Local Open Scope nat_scope.
Local Open Scope list_scope.

(** ** Python syntax of the code cells *)

Module Py.

Inductive expr : Type :=
| EName (x : string)
| EStr (s : string)
| EInt (n : Z)
| EBool (b : bool)
| ENone
| EList (items : list expr)
| EDict (items : list (string * expr))
| EAttr (obj : expr) (attr : string)
| ECall (func : expr) (args : list expr) (kwargs : list (string * expr))
| ELShift (lhs rhs : expr).

Inductive stmt : Type :=
| SImport (module : string)
| SImportAs (module alias : string)
| SFromImport (module : string) (names : list string)
| SAssign (target : string) (value : expr)
| SExpr (e : expr).

(** A number as the notebook prints it: [digits / 10 ^ scale]. *)
Record decimal : Type := Dec { digits : Z; scale : nat }.

Inductive repr : Type :=
| RFloat (d : decimal)
| RArray (ds : list decimal)
| RDict (items : list (string * repr))
| RObject (text : string).

(** Recorded outputs: a progress bar on stderr ([percent], [done]/[total];
    the timings are left out), other stream text, or the cell's value. *)
Inductive output : Type :=
| OProgress (percent done total : nat)
| OText (name : string) (text : list string)
| OResult (count : nat) (value : repr).

Inductive cell : Type :=
| Markdown (source : list string)
| Code (execution_count : nat) (source : list stmt) (outputs : list output).

(** One link of a method chain: [.method(args, kwargs)]. *)
Record step : Type := Step {
  method : string;
  args : list expr;
  kwargs : list (string * expr)
}.

(** [obj.m(args, kwargs)] *)
Definition meth (obj : expr) (s : step) : expr :=
  ECall (EAttr obj (method s)) (args s) (kwargs s).

(** [root.s1(...).s2(...)...] *)
Definition dot (root : expr) (steps : list step) : expr :=
  fold_left meth steps root.

(** [f(args, kwargs)] for a plain name [f] *)
Definition call (f : string) (a : list expr) (k : list (string * expr)) : expr :=
  ECall (EName f) a k.

(** The method calls of a chain, outermost last, and the expression the
    chain starts from. *)
Fixpoint chain (e : expr) : expr * list step :=
  match e with
  | ECall (EAttr obj m) a k =>
      let '(root, steps) := chain obj in (root, steps ++ [Step m a k])
  | _ => (e, [])
  end.

Definition is_name (x : string) (e : expr) : bool :=
  match e with
  | EName y => String.eqb y x
  | _ => false
  end.

(** Keyword lookup; Python rejects a repeated keyword, so the first is the one. *)
Fixpoint kwarg (k : list (string * expr)) (name : string) : option expr :=
  match k with
  | [] => None
  | (n, v) :: k' => if String.eqb n name then Some v else kwarg k' name
  end.

End Py.

Export Py.

(** The deferred tokens [B('x')], [C('x')], [D('x')], [V('x')] and
    [V('x', mode='m')]. *)
Definition B_ (x : string) : expr := call "B" [EStr x] [].
Definition C_ (x : string) : expr := call "C" [EStr x] [].
Definition D_ (x : string) : expr := call "D" [EStr x] [].
Definition V_ (x : string) : expr := call "V" [EStr x] [].
Definition V_mode (x m : string) : expr := call "V" [EStr x] [("mode", EStr m)].

(** ** Cells the two notebooks share word for word *)

Module Shared.

Definition md_batch_size : cell :=
  Markdown ["BATCH_SIZE might be increased for modern GPUs with lots of memory (4GB and higher)."].

Definition code_batch_size : cell :=
  Code 2 [SAssign "BATCH_SIZE" (EInt 64)] [].

Definition md_dataset : list cell :=
  [ Markdown ["# Create a dataset"];
    Markdown ["[MNIST](http://yann.lecun.com/exdb/mnist/) is a dataset of handwritten digits frequently used as a baseline for machine learning tasks.";
              "";
              "Downloading MNIST database might take a few minutes to complete."] ].

Definition code_dataset : cell :=
  Code 3 [SAssign "dataset" (call "MNIST" [] [("bar", EBool true)])]
         [OProgress 100 8 8].

Definition md_template : list cell :=
  [ Markdown ["# Create a template pipeline"];
    Markdown ["A template pipeline is not linked to any dataset. It's just an abstract sequence of actions, so it cannot be executed, but it serves as a convenient building block."] ].

Definition md_train : list cell :=
  [ Markdown ["# Train the model"];
    Markdown ["Apply a dataset to a template pipeline to create a runnable pipeline:"] ].

(** [train_pipeline = (train_template << dataset.train)] *)
Definition code_bind : cell :=
  Code 6 [SAssign "train_pipeline"
            (ELShift (EName "train_template") (EAttr (EName "dataset") "train"))] [].

Definition md_run : cell :=
  Markdown ["Run the pipeline (it might take from a few minutes to a few hours depending on your hardware)"].

(** [train_pipeline.run(BATCH_SIZE, shuffle=True, n_epochs=1,
                        drop_last=True, bar=True, prefetch=1)] *)
Definition train_run_step : step :=
  Step "run" [EName "BATCH_SIZE"]
    [("shuffle", EBool true); ("n_epochs", EInt 1); ("drop_last", EBool true);
     ("bar", EBool true); ("prefetch", EInt 1)].

Definition train_run : expr := dot (EName "train_pipeline") [train_run_step].

Definition md_prefetch : cell :=
  Markdown ["Note that the progress bar often increments by 2 at a time - that's prefetch in action."].

Definition md_lock : cell :=
  Markdown ["It does not give much here, though, since almost all time is spent in model training which is performed under a thread-lock one batch after another without any parallelism (otherwise the model would not learn anything as different batches would rewrite one another's model weights updates)."].

Definition md_test : list cell :=
  [ Markdown ["# Test the model"];
    Markdown ["It is much faster than training, but if you don't have GPU it would take some patience."] ].

(** [.run(BATCH_SIZE, shuffle=True, n_epochs=1, drop_last=False, bar=True)] *)
Definition test_run : step :=
  Step "run" [EName "BATCH_SIZE"]
    [("shuffle", EBool true); ("n_epochs", EInt 1); ("drop_last", EBool false);
     ("bar", EBool true)].

Definition md_metrics : cell :=
  Markdown ["Let's get the accumulated [metrics information](https://analysiscenter.github.io/batchflow/intro/models.html#model-metrics)"].

(** [metrics = test_pipeline.get_variable('metrics')] *)
Definition code_get_metrics : cell :=
  Code 9 [SAssign "metrics"
            (dot (EName "test_pipeline") [Step "get_variable" [EStr "metrics"] []])] [].

Definition md_evaluate : list cell :=
  [ Markdown ["Or a shorter version: `metrics = test_pipeline.v('metrics')`"];
    Markdown ["Now we can easiliy calculate any metrics we need"] ].

(** [metrics.evaluate('accuracy')] *)
Definition evaluate_accuracy_step : step := Step "evaluate" [EStr "accuracy"] [].

Definition evaluate_accuracy : expr := dot (EName "metrics") [evaluate_accuracy_step].

(** [metrics.evaluate(['false_positive_rate', 'false_negative_rate'],
                      multiclass=None)] *)
Definition evaluate_rates : expr :=
  dot (EName "metrics")
    [ Step "evaluate" [EList [EStr "false_positive_rate"; EStr "false_negative_rate"]]
        [("multiclass", ENone)] ].

Definition md_save : cell :=
  Markdown ["# Save the model";
            "After learning the model, you may need to save it. It's easy to do this."].

Definition md_next : list cell :=
  [ Markdown ["## What's next?"];
    Markdown ["See [the image augmentation tutorial](./06_image_augmentation.ipynb) or return to the [table of contents](./00_description.ipynb)."] ].

End Shared.

(** ** The PyTorch notebook *)

Module Torch.

Definition code_imports : cell :=
  Code 1
    [ SImport "os"; SImport "sys"; SImport "warnings";
      SExpr (dot (EName "warnings") [Step "filterwarnings" [EStr "ignore"] []]);
      SImportAs "numpy" "np";
      SExpr (dot (EAttr (EName "sys") "path") [Step "append" [EStr "../.."] []]);
      SFromImport "batchflow" ["Pipeline"; "B"; "C"; "D"; "F"; "V"];
      SFromImport "batchflow.opensets" ["MNIST"; "CIFAR10"; "CIFAR100"];
      SFromImport "batchflow.models.torch" ["VGG7"] ]
    [].

Definition md_config : list cell :=
  [ Markdown ["# Define a pipeline config"];
    Markdown ["Config allows to create flexible pipelines which take parameters.";
              "";
              "For instance, if you put a model type into config, you can run a pipeline against different models.";
              "";
              "See [a list of available models](https://analysiscenter.github.io/batchflow/intro/torch_models.html#ready-to-use-models) to choose the one which fits you best."] ].

(** [config = dict(model=VGG7)] *)
Definition code_config : cell :=
  Code 4 [SAssign "config" (call "dict" [] [("model", EName "VGG7")])] [].

Definition train_template_steps : list step :=
  [ Step "init_variable" [EStr "loss_history"] [("init_on_each_run", EName "list")];
    Step "init_variable" [EStr "current_loss"] [];
    Step "init_model" [EStr "dynamic"; C_ "model"; EStr "conv_nn"]
      [("config", EDict [("inputs/images/shape", B_ "image_shape");
                         ("inputs/labels/classes", D_ "num_classes");
                         ("initial_block/inputs", EStr "images")])];
    Step "to_array" [] [("channels", EStr "first"); ("dtype", EStr "float32")];
    Step "train_model" [EStr "conv_nn"; B_ "images"; B_ "labels"]
      [("fetches", EStr "loss"); ("save_to", V_ "current_loss"); ("use_lock", EBool true)];
    Step "update_variable" [EStr "loss_history"; V_mode "current_loss" "a"] [] ].

Definition train_template : expr :=
  dot (call "Pipeline" [] [("config", EName "config")]) train_template_steps.

Definition test_pipeline_steps : list step :=
  [ Step "import_model" [EStr "conv_nn"; EName "train_pipeline"] [];
    Step "init_variable" [EStr "predictions"] [];
    Step "init_variable" [EStr "metrics"] [("init_on_each_run", ENone)];
    Step "to_array" [] [("channels", EStr "first"); ("dtype", EStr "float32")];
    Step "predict_model" [EStr "conv_nn"; B_ "images"]
      [("fetches", EStr "predictions"); ("save_to", V_ "predictions")];
    Step "gather_metrics" [EStr "class"]
      [("targets", B_ "labels"); ("predictions", V_ "predictions");
       ("fmt", EStr "logits"); ("axis", EInt (-1)); ("save_to", V_mode "metrics" "w")];
    Shared.test_run ].

Definition test_pipeline : expr :=
  dot (EAttr (EAttr (EName "dataset") "test") "p") test_pipeline_steps.

Definition zeros10 : list decimal := replicate 10 (Dec 0 0).

(** [train_pipeline.save_model_now('conv_nn', path='path/to/model.torch')] *)
Definition save : expr :=
  dot (EName "train_pipeline")
    [Step "save_model_now" [EStr "conv_nn"] [("path", EStr "path/to/model.torch")]].

Definition notebook : list cell :=
  [ Markdown ["# Train a ready to use PyTorch model with a simple pipeline"];
    code_imports;
    Shared.md_batch_size;
    Shared.code_batch_size ]
  ++ Shared.md_dataset
  ++ [ Shared.code_dataset;
       Markdown ["There are also predefined CIFAR10 and CIFAR100 datasets."] ]
  ++ md_config
  ++ [ code_config ]
  ++ Shared.md_template
  ++ [ Code 5 [SAssign "train_template" train_template] [] ]
  ++ Shared.md_train
  ++ [ Shared.code_bind;
       Shared.md_run;
       Code 7 [SExpr Shared.train_run]
         [OProgress 100 937 937;
          OResult 7 (RObject "<batchflow.pipeline.Pipeline at 0x7f46146e4390>")];
       Shared.md_prefetch;
       Shared.md_lock ]
  ++ Shared.md_test
  ++ [ Code 8 [SAssign "test_pipeline" test_pipeline] [OProgress 99 156 157];
       Shared.md_metrics;
       Shared.code_get_metrics ]
  ++ Shared.md_evaluate
  ++ [ Code 10 [SExpr Shared.evaluate_accuracy] [OResult 10 (RFloat (Dec 10 1))];
       Code 11 [SExpr Shared.evaluate_rates]
         [OResult 11 (RDict [("false_negative_rate", RArray zeros10);
                            ("false_positive_rate", RArray zeros10)])];
       Shared.md_save;
       Code 12 [SExpr save] [] ]
  ++ Shared.md_next.

End Torch.

(** ** The TensorFlow notebook *)

Module TF.

Definition code_imports : cell :=
  Code 1
    [ SImport "os"; SImport "sys"; SImport "warnings";
      SExpr (dot (EName "warnings") [Step "filterwarnings" [EStr "ignore"] []]);
      SImportAs "numpy" "np";
      SExpr (dot (EAttr (EName "sys") "path") [Step "append" [EStr "../.."] []]);
      SFromImport "batchflow" ["Pipeline"; "B"; "C"; "D"; "F"; "V"];
      SFromImport "batchflow.opensets" ["MNIST"; "CIFAR10"; "CIFAR100"];
      SFromImport "batchflow.models.tf" ["ResNet18"] ]
    [].

Definition md_config : list cell :=
  [ Markdown ["# Define a pipeline config"];
    Markdown ["Config allows to create flexible pipelines which take parameters.";
              "";
              "For instance, if you put a model type into config, you can run a pipeline against different models.";
              "";
              "See [a list of available models](https://analysiscenter.github.io/batchflow/intro/tf_models.html#ready-to-use-models) to choose the one which fits you best."] ].

(** [config = dict(model=ResNet18)] *)
Definition code_config : cell :=
  Code 4 [SAssign "config" (call "dict" [] [("model", EName "ResNet18")])] [].

Definition train_template_steps : list step :=
  [ Step "init_variable" [EStr "loss_history"] [("init_on_each_run", EName "list")];
    Step "init_variable" [EStr "current_loss"] [];
    Step "init_model" [EStr "dynamic"; C_ "model"; EStr "conv_nn"]
      [("config", EDict [("inputs/images/shape", B_ "image_shape");
                         ("inputs/labels/classes", D_ "num_classes");
                         ("initial_block/inputs", EStr "images")])];
    Step "to_array" [] [];
    Step "train_model" [EStr "conv_nn"]
      [("fetches", EStr "loss"); ("images", B_ "images"); ("labels", B_ "labels");
       ("save_to", V_ "current_loss")];
    Step "update_variable" [EStr "loss_history"; V_mode "current_loss" "a"] [] ].

Definition train_template : expr :=
  dot (call "Pipeline" [] [("config", EName "config")]) train_template_steps.

Definition test_pipeline_steps : list step :=
  [ Step "import_model" [EStr "conv_nn"; EName "train_pipeline"] [];
    Step "init_variable" [EStr "predictions"] [];
    Step "init_variable" [EStr "metrics"] [("init_on_each_run", ENone)];
    Step "to_array" [] [];
    Step "predict_model" [EStr "conv_nn"]
      [("fetches", EStr "predictions"); ("images", B_ "images");
       ("save_to", V_ "predictions")];
    Step "gather_metrics" [EStr "class"]
      [("targets", B_ "labels"); ("predictions", V_ "predictions");
       ("fmt", EStr "logits"); ("axis", EInt (-1)); ("save_to", V_mode "metrics" "a")];
    Shared.test_run ].

Definition test_pipeline : expr :=
  dot (EAttr (EAttr (EName "dataset") "test") "p") test_pipeline_steps.

Definition false_negative_rate : list decimal :=
  [ Dec 398089 8; Dec 0 0; Dec 5910263 8; Dec 2296624 8; Dec 2156529 8;
    Dec 2501792 8; Dec 1466485 8; Dec 3667444 8; Dec 13852718 8; Dec 1652581 8 ].

Definition false_positive_rate : list decimal :=
  [ Dec 1185107 8; Dec 326121 8; Dec 45192 8; Dec 8677 7; Dec 14349 7;
    Dec 203828 8; Dec 86646 7; Dec 178542 8; Dec 54209 8; Dec 543 5 ].

(** [train_pipeline.save_model_now('conv_nn', path='path/to/save')] *)
Definition save : expr :=
  dot (EName "train_pipeline")
    [Step "save_model_now" [EStr "conv_nn"] [("path", EStr "path/to/save")]].

Definition notebook : list cell :=
  [ Markdown ["# Train a ready to use TensorFlow model with a simple pipeline"];
    code_imports;
    Shared.md_batch_size;
    Shared.code_batch_size ]
  ++ Shared.md_dataset
  ++ [ Shared.code_dataset;
       Markdown ["There are also predefined CIFAR10 and CIFAR100 datasets."] ]
  ++ md_config
  ++ [ code_config ]
  ++ Shared.md_template
  ++ [ Code 5 [SAssign "train_template" train_template] [] ]
  ++ Shared.md_train
  ++ [ Shared.code_bind;
       Shared.md_run;
       Code 7 [SExpr Shared.train_run]
         [OProgress 100 937 937;
          OResult 7 (RObject "<batchflow.pipeline.Pipeline at 0x7f27a1a36b70>")];
       Shared.md_prefetch;
       Shared.md_lock ]
  ++ Shared.md_test
  ++ [ Code 8 [SAssign "test_pipeline" test_pipeline] [OProgress 99 156 157];
       Shared.md_metrics;
       Shared.code_get_metrics ]
  ++ Shared.md_evaluate
  ++ [ Code 10 [SExpr Shared.evaluate_accuracy]
         [OResult 10 (RFloat (Dec 9671576433121019 16))];
       Code 11 [SExpr Shared.evaluate_rates]
         [OResult 11 (RDict [("false_negative_rate", RArray false_negative_rate);
                            ("false_positive_rate", RArray false_positive_rate)])];
       Shared.md_save;
       Code 12 [SExpr save] [OText "stdout" []] ]
  ++ Shared.md_next.

End TF.

(** The notebooks of the repository. *)
Definition notebooks : list (list cell) := [Torch.notebook; TF.notebook].

(** ** Reading a notebook *)

Module Nb.

(** The names a notebook has bound so far to pipelines and to objects
    fetched from a pipeline with [get_variable]. *)
Record env : Type := Env { pipes : list string; objects : list string }.

(** An expression a chain can start from that denotes a pipeline:
    [Pipeline(...)], [<split>.p], a name bound to a pipeline, or
    [template << split]. *)
Definition pipeline_root (en : env) (e : expr) : bool :=
  match e with
  | EName x => bool_decide (x ∈ pipes en)
  | ECall (EName f) _ _ => String.eqb f "Pipeline"
  | EAttr _ a => String.eqb a "p"
  | ELShift (EName x) _ => bool_decide (x ∈ pipes en)
  | _ => false
  end.

Definition object_root (en : env) (e : expr) : bool :=
  match e with
  | EName x => bool_decide (x ∈ objects en)
  | _ => false
  end.

Definition stmt_expr (s : stmt) : option expr :=
  match s with
  | SAssign _ e | SExpr e => Some e
  | _ => None
  end.

(** A chain of pipeline methods yields the pipeline again, except when it
    ends in [get_variable], which yields the stored object. *)
Definition yields_pipeline (steps : list step) : bool :=
  match last steps with
  | Some st => negb (String.eqb (method st) "get_variable")
  | None => true
  end.

Definition bind (en : env) (s : stmt) : env :=
  match s with
  | SAssign x e =>
      let '(root, steps) := chain e in
      if pipeline_root en root then
        if yields_pipeline steps
        then Env (x :: pipes en) (objects en)
        else Env (pipes en) (x :: objects en)
      else en
  | _ => en
  end.

(** A method call made on a pipeline or on an object fetched from one. *)
Record site : Type := Site {
  at_cell : nat;            (* index of the cell in the notebook *)
  bound_to : option string; (* the name the whole chain is assigned to *)
  receiver : expr;          (* what the chain starts from *)
  on_object : bool;         (* the receiver is a fetched object, not a pipeline *)
  op : step
}.

Definition stmt_sites (en : env) (i : nat) (s : stmt) : list site :=
  match stmt_expr s with
  | Some e =>
      let '(root, steps) := chain e in
      let tgt := match s with SAssign x _ => Some x | _ => None end in
      if pipeline_root en root then Site i tgt root false <$> steps
      else if object_root en root then Site i tgt root true <$> steps
      else []
  | None => []
  end.

Fixpoint stmts_sites (en : env) (i : nat) (ss : list stmt) : env * list site :=
  match ss with
  | [] => (en, [])
  | s :: ss' =>
      let here := stmt_sites en i s in
      let '(en', rest) := stmts_sites (bind en s) i ss' in
      (en', here ++ rest)
  end.

Fixpoint cells_sites (en : env) (i : nat) (cs : list cell) : list site :=
  match cs with
  | [] => []
  | Markdown _ :: cs' => cells_sites en (S i) cs'
  | Code _ ss _ :: cs' =>
      let '(en', here) := stmts_sites en i ss in
      here ++ cells_sites en' (S i) cs'
  end.

(** Every call on a pipeline or fetched object, in program order. *)
Definition sites (nb : list cell) : list site := cells_sites (Env [] []) 0 nb.

Definition calls_of (m : string) (nb : list cell) : list site :=
  filter (λ s, method (op s) = m) (sites nb).

(** The [run] calls of a notebook. *)
Definition run_calls (nb : list cell) : list site := calls_of "run" nb.

(** The pipelines a notebook assembles: the chains it binds to a name,
    with their declared steps (the closing [run], which executes the
    pipeline, is not one of them). *)
Record pipeline : Type := Pipeline { pname : string; psteps : list step }.

Definition declared (steps : list step) : list step :=
  filter (λ st, method st ≠ "run") steps.

Definition stmt_pipeline (en : env) (s : stmt) : list pipeline :=
  match s with
  | SAssign x e =>
      let '(root, steps) := chain e in
      if pipeline_root en root && yields_pipeline steps
         && negb (bool_decide (declared steps = []))
      then [Pipeline x (declared steps)] else []
  | _ => []
  end.

Fixpoint stmts_pipelines (en : env) (ss : list stmt) : env * list pipeline :=
  match ss with
  | [] => (en, [])
  | s :: ss' =>
      let here := stmt_pipeline en s in
      let '(en', rest) := stmts_pipelines (bind en s) ss' in
      (en', here ++ rest)
  end.

Fixpoint cells_pipelines (en : env) (cs : list cell) : list pipeline :=
  match cs with
  | [] => []
  | Markdown _ :: cs' => cells_pipelines en cs'
  | Code _ ss _ :: cs' =>
      let '(en', here) := stmts_pipelines en ss in
      here ++ cells_pipelines en' cs'
  end.

Definition pipelines (nb : list cell) : list pipeline := cells_pipelines (Env [] []) nb.

End Nb.

(** ** What the notebooks say about their pipelines *)

Module Facts.

Import Nb.

(** [x = t << split] makes [x] the pipeline [t] applied to a dataset split. *)
Definition stmt_alias (s : stmt) : list (string * string) :=
  match s with
  | SAssign x (ELShift (EName t) _) => [(x, t)]
  | _ => []
  end.

Definition cell_stmts (c : cell) : list stmt :=
  match c with
  | Markdown _ => []
  | Code _ ss _ => ss
  end.

Definition aliases (nb : list cell) : list (string * string) :=
  flat_map stmt_alias (flat_map cell_stmts nb).

Fixpoint assoc {A : Type} (l : list (string * A)) (x : string) : option A :=
  match l with
  | [] => None
  | (y, a) :: l' => if String.eqb y x then Some a else assoc l' x
  end.

(** The declared steps of the pipeline named [x], through [<<]. *)
Definition steps_of (nb : list cell) (x : string) : list step :=
  let t := default x (assoc (aliases nb) x) in
  default [] (assoc ((λ p, (pname p, psteps p)) <$> pipelines nb) t).

Definition has_step (m : string) (steps : list step) : bool :=
  bool_decide (m ∈ method <$> steps).

(** The value a code cell displays. *)
Definition output_value (o : output) : option repr :=
  match o with
  | OResult _ r => Some r
  | _ => None
  end.

Definition cell_result (nb : list cell) (i : nat) : option repr :=
  match nb !! i with
  | Some (Code _ _ outs) => head (omap output_value outs)
  | _ => None
  end.

Definition cell_progress (nb : list cell) (i : nat) : option (nat * nat) :=
  match nb !! i with
  | Some (Code _ _ outs) =>
      head (omap (λ o, match o with OProgress _ d t => Some (d, t) | _ => None end) outs)
  | _ => None
  end.

(** *** The entry point *)

(** The parameters of [run] as the spec lists them, and as the notebooks
    name them. *)
Definition spec_run_parameters : list string :=
  ["batch_size"; "shuffle"; "n_epochs"; "drop_last"; "prefetch"; "progress_bar"].

Definition code_run_parameters : list string :=
  ["batch_size"; "shuffle"; "n_epochs"; "drop_last"; "prefetch"; "bar"].

(** A call passes only parameters of [params]: its positional arguments
    take the first ones in order, each keyword names one of the others. *)
Definition passes_only (params : list string) (s : step) : Prop :=
  length (args s) ≤ length params ∧
  Forall (λ k, k ∈ drop (length (args s)) params) (kwargs s).*1.

(** The [run] call made on the pipeline named [x], or closing the chain
    that is bound to [x]. *)
Definition run_of (nb : list cell) (x : string) : option site :=
  head (List.filter (λ s, is_name x (receiver s) || bool_decide (bound_to s = Some x))
          (run_calls nb)).

(** Both pipelines of a notebook are executed by a [run] call, and every
    [run] call passes only parameters of [params]. *)
Definition runs_through (params : list string) (nb : list cell) : Prop :=
  is_Some (run_of nb "train_pipeline") ∧ is_Some (run_of nb "test_pipeline") ∧
  ∀ s, s ∈ run_calls nb → passes_only params (op s).

(** The keywords of [run] next to the batch size, as the notebooks name
    them. *)
Definition run_keywords : list string := drop 1 code_run_parameters.

(** A call gives the batch size by position, as the constant [BATCH_SIZE],
    and nothing else by position; each of its keywords is one of
    [keywords], and none is given twice. *)
Definition passes_batch_size (keywords : list string) (s : step) : Prop :=
  args s = [EName "BATCH_SIZE"] ∧
  NoDup (kwargs s).*1 ∧ Forall (λ k, k ∈ keywords) (kwargs s).*1.

(** [BATCH_SIZE] is assigned once, to a number; both pipelines of the
    notebook are executed by a [run] call; and every [run] call gives
    [BATCH_SIZE] by position and otherwise only keywords of [keywords]. *)
Definition runs_with_batch_size (keywords : list string) (nb : list cell) : Prop :=
  (∃ n, List.filter (λ s, match s with
                          | SAssign x _ => String.eqb x "BATCH_SIZE"
                          | _ => false
                          end) (flat_map cell_stmts nb)
        = [SAssign "BATCH_SIZE" (EInt n)]) ∧
  is_Some (run_of nb "train_pipeline") ∧ is_Some (run_of nb "test_pipeline") ∧
  ∀ s, s ∈ run_calls nb → passes_batch_size keywords (op s).

(** *** Order of the steps *)

Inductive kind : Type :=
| VariableInit | ModelInit | ModelImport | ArrayConversion
| TrainStep | PredictStep | VariableUpdate | MetricsGather | Other.

Definition kind_of (m : string) : kind :=
  if String.eqb m "init_variable" then VariableInit
  else if String.eqb m "init_model" then ModelInit
  else if String.eqb m "import_model" then ModelImport
  else if String.eqb m "to_array" then ArrayConversion
  else if String.eqb m "train_model" then TrainStep
  else if String.eqb m "predict_model" then PredictStep
  else if String.eqb m "update_variable" then VariableUpdate
  else if String.eqb m "gather_metrics" then MetricsGather
  else Other.

(** The position of a kind in the order the spec gives; the spec's order
    has no place for the other kinds. *)
Definition spec_phase (k : kind) : option nat :=
  match k with
  | VariableInit => Some 0
  | ModelInit | ModelImport => Some 1
  | ArrayConversion => Some 2
  | TrainStep | PredictStep => Some 3
  | MetricsGather => Some 4
  | VariableUpdate | Other => None
  end.

Fixpoint nondecreasing (l : list nat) : bool :=
  match l with
  | a :: (b :: _) as l' => (a <=? b) && nondecreasing l'
  | _ => true
  end.

(** The steps that have a place in the spec's order occur in that order. *)
Definition in_spec_order (steps : list step) : Prop :=
  nondecreasing (omap (λ st, spec_phase (kind_of (method st))) steps) = true.

Definition kinds (steps : list step) : list kind := (λ st, kind_of (method st)) <$> steps.

(** The order of the steps in the training template and in the test
    pipeline. *)
Definition train_kinds : list kind :=
  [VariableInit; VariableInit; ModelInit; ArrayConversion; TrainStep; VariableUpdate].

Definition test_kinds : list kind :=
  [ModelImport; VariableInit; VariableInit; ArrayConversion; PredictStep; MetricsGather].

(** *** Deferred tokens *)

Definition literal (e : expr) : bool :=
  match e with
  | EStr _ | EInt _ | EBool _ | ENone => true
  | _ => false
  end.

Definition token_names : list string := ["B"; "C"; "D"; "V"].

(** An argument that takes nothing from a batch, a config, a dataset or a
    variable except through a token: a literal, a notebook-level name, a
    token applied to literals, or a list or dict of such. *)
Fixpoint deferred_only (e : expr) : bool :=
  match e with
  | EStr _ | EInt _ | EBool _ | ENone | EName _ => true
  | EList items => forallb deferred_only items
  | EDict items => forallb (λ kv, deferred_only kv.2) items
  | ECall (EName f) a k =>
      bool_decide (f ∈ token_names) && forallb literal a && forallb (λ kv, literal kv.2) k
  | ECall _ _ _ | EAttr _ _ | ELShift _ _ => false
  end.

Definition step_deferred_only (s : step) : Prop :=
  forallb deferred_only (args s) && forallb (λ kv, deferred_only kv.2) (kwargs s) = true.

(** *** The pipeline API *)

Definition spec_api : list string :=
  ["init_variable"; "init_model"; "train_model"; "predict_model";
   "gather_metrics"; "evaluate"; "save_model_now"].

Definition code_api : list string :=
  spec_api ++ ["import_model"; "to_array"; "update_variable"; "run"; "get_variable"].

Definition methods_used (nb : list cell) : list string :=
  (λ s, method (op s)) <$> sites nb.

(** *** Recorded metrics *)

(** The rational a printed number stands for. *)
Definition to_Q (d : decimal) : Q := digits d # Z.to_pos (10 ^ Z.of_nat (scale d)).

Definition in_unit (d : decimal) : Prop := (0 <= to_Q d)%Q ∧ (to_Q d <= 1)%Q.

Definition in_unitb (d : decimal) : bool :=
  (0 <=? digits d)%Z && (digits d <=? 10 ^ Z.of_nat (scale d))%Z.

(** The numbers a displayed value contains. *)
Fixpoint numbers (r : repr) : list decimal :=
  match r with
  | RFloat d => [d]
  | RArray ds => ds
  | RDict items => flat_map (λ kv, numbers kv.2) items
  | RObject _ => []
  end.




(** The variable a step saves its result to, [save_to=V('x', ...)]. *)
Definition saved_to (st : step) : option string :=
  match kwarg (kwargs st) "save_to" with
  | Some (ECall (EName f) (EStr x :: _) _) => if String.eqb f "V" then Some x else None
  | _ => None
  end.


(** *** The course of a notebook *)

(** One [run] on the training pipeline, for one epoch; after it the test
    pipeline gathers metrics, then the metrics are evaluated, then the model
    is saved, once, with [save_model_now(name, path=...)] on the training
    pipeline. *)
Definition trains_measures_saves (nb : list cell) : Prop :=
  ∃ r t s,
    List.filter (λ c, is_name "train_pipeline" (receiver c)) (run_calls nb) = [r] ∧
    has_step "train_model" (steps_of nb "train_pipeline") = true ∧
    kwarg (kwargs (op r)) "n_epochs" = Some (EInt 1) ∧
    List.filter (λ c, bool_decide (bound_to c = Some "test_pipeline"))
      (calls_of "gather_metrics" nb) = [t] ∧
    at_cell r < at_cell t ∧
    calls_of "evaluate" nb ≠ [] ∧
    Forall (λ e, at_cell t < at_cell e ∧ at_cell e < at_cell s) (calls_of "evaluate" nb) ∧
    calls_of "save_model_now" nb = [s] ∧
    is_name "train_pipeline" (receiver s) = true ∧
    ∃ name path, args (op s) = [EStr name] ∧ kwargs (op s) = [("path", EStr path)].

(** The test pipeline neither trains nor builds a model: its one model
    comes from [import_model('conv_nn', train_pipeline)], and it predicts. *)
Definition only_predicts (nb : list cell) : Prop :=
  has_step "train_model" (steps_of nb "test_pipeline") = false ∧
  has_step "init_model" (steps_of nb "test_pipeline") = false ∧
  has_step "predict_model" (steps_of nb "test_pipeline") = true ∧
  filter (λ st, method st = "import_model") (steps_of nb "test_pipeline")
  = [Step "import_model" [EStr "conv_nn"; EName "train_pipeline"] []].

(** [train_model(..., use_lock=True)] *)
Definition uses_lock (s : site) : Prop :=
  kwarg (kwargs (op s)) "use_lock" = Some (EBool true).

(** A markdown cell that has the phrase in one of its lines. *)
Definition mentions (phrase : string) (c : cell) : bool :=
  match c with
  | Markdown ls => existsb (λ l, bool_decide (is_Some (String.index 0 phrase l))) ls
  | Code _ _ _ => false
  end.

End Facts.

(** ** The pipeline engine

    The notebooks only call the engine; the classes behind [Pipeline], the
    dataset index, the model adapter and the metrics aggregator are not part
    of the sources.  This module gives them the behaviour the spec describes
    (section 2, section 6 and the glossary), as far as the notebooks use it. *)

Module Engine.

(** Modelled from the spec: the items of a dataset split ("labeled images");
    the dataset classes themselves are missing.  An image is known by its
    number in the split, a label by the number of its class. *)
Record sample : Type := Sample { image : nat; label : nat }.

Definition batch : Type := list sample.

(** Modelled from the spec: the values a pipeline variable holds in the
    notebooks (the variable store of the missing pipeline class): nothing
    yet, a fetched loss, fetched predictions, a metrics object
    ("accumulates per-batch predictions/targets"), or a list. *)
Inductive val : Type :=
| VNone
| VNum (x : Q)
| VLabels (classes : list nat)
| VMetrics (observed : list (nat * nat))
| VList (items : list val).

(** How a step writes into a variable: ['w'] or ['a']. *)
Inductive mode : Type := Write | Append.

(** The variable a step saves into, [V(name, mode=...)]. *)
Record dest : Type := Dest { dvar : string; dmode : mode }.

(** Modelled from the spec: the steps of a pipeline as the engine keeps
    them, one action for each method the notebooks use. *)
Inductive action : Type :=
| InitVariable (name : string) (each_run : option val)
| InitModel (name config_key : string)
| ImportModel (name from : string)
| ToArray
| TrainModel (name : string) (save_to : option dest)
| PredictModel (name : string) (save_to : option dest)
| GatherMetrics (predictions : string) (save_to : option dest)
| UpdateVariable (name value : string) (m : mode).

(** *** From the steps of a notebook to actions *)

Definition mode_of (e : expr) : option mode :=
  match e with
  | EStr s =>
      if String.eqb s "w" then Some Write
      else if String.eqb s "a" then Some Append
      else None
  | _ => None
  end.

Definition mode_kwarg (k : list (string * expr)) : option mode :=
  match kwarg k "mode" with
  | None => Some Write
  | Some m => mode_of m
  end.

(** The token [f('x', ...)]: its constructor, its name and its keywords. *)
Definition token (e : expr) : option (string * string * list (string * expr)) :=
  match e with
  | ECall (EName f) [EStr x] k => Some (f, x, k)
  | _ => None
  end.

(** A token that is written to: [V('x')] or [V('x', mode='m')]. *)
Definition dest_of (e : expr) : option dest :=
  '(f, x, k) ← token e;
  if String.eqb f "V" then Dest x <$> mode_kwarg k else None.

(** A token that is read: the variable [V('x', ...)] names.  Reading does
    not write, so the token's mode plays no part here. *)
Definition var_read (e : expr) : option string :=
  '(f, x, _) ← token e;
  if String.eqb f "V" then Some x else None.

Definition config_read (e : expr) : option string :=
  '(f, x, _) ← token e;
  if String.eqb f "C" then Some x else None.

Definition save_kwarg (k : list (string * expr)) : option (option dest) :=
  match kwarg k "save_to" with
  | None => Some None
  | Some e => Some <$> dest_of e
  end.

Definition initial (k : list (string * expr)) : option (option val) :=
  match kwarg k "init_on_each_run" with
  | None | Some ENone => Some None
  | Some (EName f) => if String.eqb f "list" then Some (Some (VList [])) else None
  | Some _ => None
  end.

(** Modelled from the spec: the meaning of the pipeline's methods ("variable
    init, model init, array conversion, train/predict step, metrics
    gather"); the methods themselves are missing.  A step that writes takes
    its mode from the token it saves to; [update_variable(name, value)] has
    a [mode] keyword of its own, ['w'] when it is not given. *)
Definition compile (s : step) : option action :=
  let m := method s in
  if String.eqb m "init_variable" then
    match args s with
    | [EStr x] => InitVariable x <$> initial (kwargs s)
    | _ => None
    end
  else if String.eqb m "init_model" then
    match args s with
    | [EStr _; cls; EStr name] => InitModel name <$> config_read cls
    | _ => None
    end
  else if String.eqb m "import_model" then
    match args s with
    | [EStr name; EName p] => Some (ImportModel name p)
    | _ => None
    end
  else if String.eqb m "to_array" then Some ToArray
  else if String.eqb m "train_model" then
    match args s with
    | EStr name :: _ => TrainModel name <$> save_kwarg (kwargs s)
    | _ => None
    end
  else if String.eqb m "predict_model" then
    match args s with
    | EStr name :: _ => PredictModel name <$> save_kwarg (kwargs s)
    | _ => None
    end
  else if String.eqb m "gather_metrics" then
    p ← kwarg (kwargs s) "predictions" ≫= var_read;
    GatherMetrics p <$> save_kwarg (kwargs s)
  else if String.eqb m "update_variable" then
    match args s with
    | [EStr x; v] => src ← var_read v; UpdateVariable x src <$> mode_kwarg (kwargs s)
    | _ => None
    end
  else None.

Definition compile_all (steps : list step) : option (list action) := mapM compile steps.

(** The arguments of [run]. *)
Record run_config : Type := RunConfig {
  batch_size : nat;
  shuffle : bool;
  n_epochs : nat;
  drop_last : bool;
  prefetch : option nat;
  bar : bool
}.

Definition stmt_constant (s : stmt) : list (string * Z) :=
  match s with
  | SAssign x (EInt n) => [(x, n)]
  | _ => []
  end.

(** The integer constants of a notebook, such as [BATCH_SIZE = 64]. *)
Definition constants (nb : list cell) : list (string * Z) :=
  flat_map stmt_constant (flat_map Facts.cell_stmts nb).

Definition as_nat (consts : list (string * Z)) (e : expr) : option nat :=
  match e with
  | EInt n => Some (Z.to_nat n)
  | EName x => Z.to_nat <$> Facts.assoc consts x
  | _ => None
  end.

Definition as_bool (e : expr) : option bool :=
  match e with
  | EBool b => Some b
  | _ => None
  end.

Definition run_config_of (consts : list (string * Z)) (s : step) : option run_config :=
  match args s with
  | [size] =>
      n ← as_nat consts size;
      sh ← kwarg (kwargs s) "shuffle" ≫= as_bool;
      ep ← kwarg (kwargs s) "n_epochs" ≫= as_nat consts;
      dl ← kwarg (kwargs s) "drop_last" ≫= as_bool;
      pb ← kwarg (kwargs s) "bar" ≫= as_bool;
      Some (RunConfig n sh ep dl (kwarg (kwargs s) "prefetch" ≫= as_nat consts) pb)
  | _ => None
  end.

(** *** Batches *)

(** Modelled from the spec: how [run(batch_size, ..., drop_last, ...)] cuts
    a split into batches; the dataset index that does it is missing.  The
    items are taken [size] at a time in the order of the epoch; a last batch
    with fewer items is left out when [drop_last] is set. *)
Definition n_batches (n size : nat) (drop_last : bool) : nat :=
  if drop_last then n / size else (n + size - 1) / size.

(** Modelled from the spec: the batches of one epoch, batch [i] being the
    items from [i * size] on, at most [size] of them. *)
Definition epoch_batches (size : nat) (drop_last : bool) (order : list sample) : list batch :=
  (λ i, take size (drop (i * size) order)) <$> seq 0 (n_batches (length order) size drop_last).

(** Modelled from the spec: the batches of a whole run, epoch after epoch.
    [permute e] is the order in which epoch [e] visits the split when
    [shuffle] is set. *)
Definition schedule (permute : nat → list sample → list sample)
    (cfg : run_config) (split : list sample) : list batch :=
  flat_map
    (λ e, epoch_batches (batch_size cfg) (drop_last cfg)
            (if shuffle cfg then permute e split else split))
    (seq 0 (n_epochs cfg)).

(** Modelled from the spec: the model adapter ("wraps a deep-learning
    framework model behind a uniform init/train/predict/save contract"); the
    model classes are missing.  [fit] is a training step on a batch, [loss]
    the loss the step reports, [predict] the class given to an image. *)
Class Model (weights : Type) : Type := {
  init_weights : weights;
  fit : weights → batch → weights;
  loss : weights → batch → Q;
  predict : weights → nat → nat
}.

Section Framework.

Context {weights : Type} `{!Model weights}.

(** Modelled from the spec: the state of a pipeline (the missing pipeline
    class keeps a config, named variables and named models).  A model is
    held by reference: [models] gives its place in the heap of the world,
    so that an imported model is the same model. *)
Record pstate : Type := PState {
  config : list string;
  vars : gmap string val;
  models : gmap string nat
}.

(** Modelled from the spec: everything the notebook's pipelines share, the
    models (by place) and the pipelines (by the name they are bound to). *)
Record world : Type := World {
  heap : list weights;
  pipes : gmap string pstate
}.

Definition set_var (x : string) (v : val) (ps : pstate) : pstate :=
  PState (config ps) (<[x := v]> (vars ps)) (models ps).

Definition set_model (name : string) (l : nat) (ps : pstate) : pstate :=
  PState (config ps) (vars ps) (<[name := l]> (models ps)).

Definition set_pipe (self : string) (ps : pstate) (w : world) : world :=
  World (heap w) (<[self := ps]> (pipes w)).

(** Modelled from the spec: writing a value under a mode (the missing
    named-expression class).  ['w'] replaces the value.  ['a'] appends to a
    list, merges into a metrics object ("accumulates"), and takes the place
    of a value that is still [None]. *)
Definition store (m : mode) (old new : val) : option val :=
  match m with
  | Write => Some new
  | Append =>
      match old, new with
      | VNone, _ => Some new
      | VList items, _ => Some (VList (items ++ [new]))
      | VMetrics seen, VMetrics more => Some (VMetrics (seen ++ more))
      | _, _ => None
      end
  end.

Definition write (d : dest) (v : val) (ps : pstate) : option pstate :=
  old ← vars ps !! dvar d;
  new ← store (dmode d) old v;
  Some (set_var (dvar d) new ps).

Definition save (d : option dest) (v : val) (ps : pstate) : option pstate :=
  match d with
  | Some d => write d v ps
  | None => Some ps
  end.

(** Modelled from the spec: one action on one batch, in the pipeline named
    [self] (the missing executor).  A model is built on first use and found
    again afterwards; training replaces its weights in the heap and fetches
    the loss; prediction and metrics only read the model and the batch. *)
Definition exec_action (self : string) (b : batch) (a : action) (w : world) : option world :=
  ps ← pipes w !! self;
  match a with
  | InitVariable _ _ => Some w
  | InitModel name key =>
      if bool_decide (key ∈ config ps) then
        match models ps !! name with
        | Some _ => Some w
        | None =>
            Some (World (heap w ++ [init_weights])
                        (<[self := set_model name (length (heap w)) ps]> (pipes w)))
        end
      else None
  | ImportModel name from =>
      src ← pipes w !! from;
      l ← models src !! name;
      Some (set_pipe self (set_model name l ps) w)
  | ToArray => Some w
  | TrainModel name d =>
      l ← models ps !! name;
      wt ← heap w !! l;
      ps' ← save d (VNum (loss wt b)) ps;
      Some (World (<[l := fit wt b]> (heap w)) (<[self := ps']> (pipes w)))
  | PredictModel name d =>
      l ← models ps !! name;
      wt ← heap w !! l;
      ps' ← save d (VLabels ((λ s, predict wt (image s)) <$> b)) ps;
      Some (set_pipe self ps' w)
  | GatherMetrics p d =>
      v ← vars ps !! p;
      match v with
      | VLabels classes =>
          ps' ← save d (VMetrics (zip (label <$> b) classes)) ps;
          Some (set_pipe self ps' w)
      | _ => None
      end
  | UpdateVariable x src m =>
      v ← vars ps !! src;
      ps' ← write (Dest x m) v ps;
      Some (set_pipe self ps' w)
  end.

Fixpoint exec_actions (self : string) (b : batch) (acts : list action) (w : world)
    : option world :=
  match acts with
  | [] => Some w
  | a :: acts' => w' ← exec_action self b a w; exec_actions self b acts' w'
  end.

Fixpoint exec_batches (self : string) (acts : list action) (bs : list batch) (w : world)
    : option world :=
  match bs with
  | [] => Some w
  | b :: bs' => w' ← exec_actions self b acts w; exec_batches self acts bs' w'
  end.

(** Modelled from the spec: what [init_variable] does when a run starts.
    With [init_on_each_run] the variable starts every run from that value;
    without it the variable is created as [None] unless it exists. *)
Definition init_action (ps : pstate) (a : action) : pstate :=
  match a with
  | InitVariable x (Some v) => set_var x v ps
  | InitVariable x None =>
      match vars ps !! x with
      | Some _ => ps
      | None => set_var x VNone ps
      end
  | _ => ps
  end.

Definition init_run (self : string) (acts : list action) (w : world) : option world :=
  ps ← pipes w !! self;
  Some (set_pipe self (foldl init_action ps acts) w).

(** Modelled from the spec: [run] of the pipeline named [self] over the
    batches [bs], one batch after the other. *)
Definition run_batches (self : string) (acts : list action) (bs : list batch) (w : world)
    : option world :=
  w0 ← init_run self acts w;
  exec_batches self acts bs w0.

(** [pipeline.get_variable(name)] *)
Definition get_variable (self x : string) (w : world) : option val :=
  ps ← pipes w !! self;
  vars ps !! x.

(** A pipeline as [Pipeline(config=...)] or [split.p] makes it. *)
Definition new_pipeline (keys : list string) : pstate := PState keys ∅ ∅.

(** An action that trains no model and builds none. *)
Definition reads_models (a : action) : Prop :=
  match a with
  | TrainModel _ _ | InitModel _ _ => False
  | _ => True
  end.

End Framework.

Arguments world : clear implicits.

(** *** The metrics aggregator *)

(** Modelled from the spec: the value of one metric ("summary statistics");
    the metrics classes are missing.  A metric is a number, or one number
    for each class, as in the arrays the notebooks display. *)
Inductive value : Type :=
| Scalar (x : Q)
| PerClass (xs : list Q).


(** The observed (target, prediction) pairs that satisfy [p]. *)
Definition count (p : nat * nat → bool) (observed : list (nat * nat)) : nat :=
  length (List.filter p observed).

(** [a / b]; where there is nothing to divide by, [a] is 0 in every use
    below and so is the ratio. *)
Definition ratio (a b : nat) : Q := Qmake (Z.of_nat a) (Pos.of_nat b).

(** Modelled from the spec: the statistics the notebooks ask for.  The
    accuracy is the share of pairs whose prediction is the target; the
    false positive rate of a class is the share of the items of other
    classes that are predicted as it; the false negative rate of a class is
    the share of its items that are predicted as another class. *)
Definition accuracy (observed : list (nat * nat)) : Q :=
  ratio (count (λ tp, tp.1 =? tp.2) observed) (length observed).

Definition false_positive_rate (observed : list (nat * nat)) (c : nat) : Q :=
  ratio (count (λ tp, negb (tp.1 =? c) && (tp.2 =? c)) observed)
        (count (λ tp, negb (tp.1 =? c)) observed).

Definition false_negative_rate (observed : list (nat * nat)) (c : nat) : Q :=
  ratio (count (λ tp, (tp.1 =? c) && negb (tp.2 =? c)) observed)
        (count (λ tp, tp.1 =? c) observed).

Definition mean (xs : list Q) : Q :=
  Qdiv (fold_right Qplus (inject_Z 0) xs) (inject_Z (Z.of_nat (length xs))).

(** Modelled from the spec: the option [multiclass] among the [**options]
    of [evaluate].  [multiclass=None], as the notebooks pass it, asks for
    the value of every class; otherwise the values of the classes are
    averaged into one number. *)
Definition per_class (opts : list (string * expr)) : bool :=
  match kwarg opts "multiclass" with
  | Some ENone => true
  | _ => false
  end.

Definition by_class (classes : nat) (opts : list (string * expr)) (f : nat → Q) : value :=
  if per_class opts then PerClass (f <$> seq 0 classes)
  else Scalar (mean (f <$> seq 0 classes)).

(** The metrics the notebooks ask for. *)
Definition metric_names : list string :=
  ["accuracy"; "false_positive_rate"; "false_negative_rate"].

(** Modelled from the spec: one metric of a metrics object, by name, for a
    metrics object over [classes] classes that has accumulated the pairs
    [observed]; a name that is no metric gives nothing. *)
Definition metric (classes : nat) (observed : list (nat * nat))
    (opts : list (string * expr)) (name : string) : option value :=
  if String.eqb name "accuracy" then Some (Scalar (accuracy observed))
  else if String.eqb name "false_positive_rate"
  then Some (by_class classes opts (false_positive_rate observed))
  else if String.eqb name "false_negative_rate"
  then Some (by_class classes opts (false_negative_rate observed))
  else None.




End Engine.

(** ** The notebooks as programs over the engine *)

Module Program.

Import Nb Facts Engine.

Definition train_actions (nb : list cell) : option (list action) :=
  compile_all (steps_of nb "train_pipeline").

Definition test_actions (nb : list cell) : option (list action) :=
  compile_all (steps_of nb "test_pipeline").

Definition config_of (nb : list cell) (x : string) : option run_config :=
  s ← run_of nb x;
  run_config_of (constants nb) (op s).

Definition stmt_dict (s : stmt) : list (string * list string) :=
  match s with
  | SAssign x (ECall (EName f) [] k) => if String.eqb f "dict" then [(x, k.*1)] else []
  | _ => []
  end.

(** The keys of the config the training template is built with,
    [Pipeline(config=config)] with [config = dict(...)]. *)
Definition config_keys (nb : list cell) : list string :=
  default [] (assoc (flat_map stmt_dict (flat_map cell_stmts nb)) "config").

Section Framework.

Context {weights : Type} `{!Model weights}.
Variable permute : nat → list sample → list sample.

(** [train_pipeline = (train_template << dataset.train)] *)
Definition bound (nb : list cell) : world weights :=
  World [] {[ "train_pipeline" := new_pipeline (config_keys nb) ]}.

(** [train_pipeline.run(...)] over the batches [bs] *)
Definition train_on (nb : list cell) (bs : list batch) (w : world weights)
    : option (world weights) :=
  acts ← train_actions nb;
  run_batches "train_pipeline" acts bs w.

(** [train_pipeline.run(BATCH_SIZE, ...)] over the training split *)
Definition train (nb : list cell) (split : list sample) (w : world weights)
    : option (world weights) :=
  cfg ← config_of nb "train_pipeline";
  train_on nb (schedule permute cfg split) w.

(** [test_pipeline = (dataset.test.p ... .run(...))] over the batches [bs] *)
Definition test_on (nb : list cell) (bs : list batch) (w : world weights)
    : option (world weights) :=
  acts ← test_actions nb;
  run_batches "test_pipeline" acts bs (set_pipe "test_pipeline" (new_pipeline []) w).

(** [test_pipeline = (dataset.test.p ... .run(BATCH_SIZE, ...))] over the
    test split *)
Definition test (nb : list cell) (split : list sample) (w : world weights)
    : option (world weights) :=
  cfg ← config_of nb "test_pipeline";
  test_on nb (schedule permute cfg split) w.

(** The actions the test pipelines compile to; [m] is the mode of
    [save_to=V('metrics', mode=...)], the one place where they differ. *)
Definition test_acts (m : mode) : list action :=
  [ ImportModel "conv_nn" "train_pipeline";
    InitVariable "predictions" None;
    InitVariable "metrics" None;
    ToArray;
    PredictModel "conv_nn" (Some (Dest "predictions" Write));
    GatherMetrics "predictions" (Some (Dest "metrics" m)) ].

(** The actions the training templates compile to; [m] is the mode
    [update_variable] writes with. *)
Definition train_acts (m : mode) : list action :=
  [ InitVariable "loss_history" (Some (VList []));
    InitVariable "current_loss" None;
    InitModel "conv_nn" "model";
    ToArray;
    TrainModel "conv_nn" (Some (Dest "current_loss" Write));
    UpdateVariable "loss_history" "current_loss" m ].

(** The test pipeline can run: the training pipeline holds the model at
    [l], and the variables of the test pipeline are set up. *)
Definition ready (l : nat) (w : world weights) : Prop :=
  ∃ tp ps,
    pipes w !! "train_pipeline" = Some tp ∧ models tp !! "conv_nn" = Some l ∧
    is_Some (heap w !! l) ∧
    pipes w !! "test_pipeline" = Some ps ∧
    is_Some (vars ps !! "predictions") ∧
    (vars ps !! "metrics" = Some VNone ∨ ∃ m, vars ps !! "metrics" = Some (VMetrics m)).

(** The training pipeline between two batches: its model has the weights
    [wt], its variables [loss_history] and [current_loss] hold [lh] and [cl]. *)
Definition training (wt : weights) (lh cl : val) (w : world weights) : Prop :=
  heap w = [wt] ∧
  ∃ ps, pipes w !! "train_pipeline" = Some ps ∧ "model" ∈ config ps ∧
        models ps !! "conv_nn" = Some 0 ∧
        vars ps !! "loss_history" = Some lh ∧ vars ps !! "current_loss" = Some cl.

(** The training pipeline before its first batch: no model is built yet. *)
Definition untrained (lh cl : val) (w : world weights) : Prop :=
  heap w = [] ∧
  ∃ ps, pipes w !! "train_pipeline" = Some ps ∧ "model" ∈ config ps ∧
        models ps !! "conv_nn" = None ∧
        vars ps !! "loss_history" = Some lh ∧ vars ps !! "current_loss" = Some cl.

(** The (target, prediction) pairs [gather_metrics] takes from a batch when
    the model has the weights [wt]. *)
Definition gathered (wt : weights) (b : batch) : list (nat * nat) :=
  zip (label <$> b) ((λ s, predict wt (image s)) <$> b).

(** What the variable [gather_metrics] saves to holds after one more batch,
    under the mode of [save_to]. *)
Definition gather_step (m : mode) (wt : weights) (seen : list (nat * nat)) (b : batch)
    : list (nat * nat) :=
  match m with
  | Write => gathered wt b
  | Append => seen ++ gathered wt b
  end.

(** What it holds after the batches [bs] of a run. *)
Definition gathered_over (m : mode) (wt : weights) (bs : list batch) : list (nat * nat) :=
  foldl (gather_step m wt) [] bs.



(** The weights after training on the batches in turn, and the losses
    fetched on the way. *)
Definition trained (wt : weights) (bs : list batch) : weights := foldl fit wt bs.

Fixpoint losses (wt : weights) (bs : list batch) : list Q :=
  match bs with
  | [] => []
  | b :: bs' => loss wt b :: losses (fit wt b) bs'
  end.

End Framework.

(** The training template with the mode given to [update_variable] itself,
    [.update_variable('loss_history', V('current_loss'), mode='a')]; it is
    in neither notebook and serves for comparison only. *)
Definition appending_steps (nb : list cell) : list step :=
  (λ st, if String.eqb (method st) "update_variable"
         then Step "update_variable" [EStr "loss_history"; V_ "current_loss"]
                [("mode", EStr "a")]
         else st) <$> steps_of nb "train_pipeline".

(** A small model to run the engine on: the weights count the training
    steps taken, the loss is the batch size after that many steps, the
    predicted class is the image number shifted by the count, modulo ten. *)
#[export] Instance counting_model : Model nat := {
  init_weights := 0;
  fit wt b := S wt;
  loss wt b := Z.of_nat (length b) # Pos.of_succ_nat wt;
  predict wt i := (i + wt) mod 10
}.

(** The first [n] items of a split in which item [i] has class [i mod 10]. *)
Definition items (n : nat) : list sample := (λ i, Sample i (i mod 10)) <$> seq 0 n.

(** A world in which the training pipeline holds a model that has taken
    three training steps. *)
Definition held_model : pstate := PState ["model"] ∅ {[ "conv_nn" := 0 ]}.

Definition after_training : world nat := World [3] {[ "train_pipeline" := held_model ]}.



End Program.

(** ** Static checks on the notebooks

    What can be read off the code cells without running them: which names,
    pipeline variables, models, config keys and model inputs a statement or
    a step uses, and where they come from. *)

Module Static.

Import Nb Facts Program.

(** The statements of a notebook in the order the cells run them. *)
Definition stmts (nb : list cell) : list stmt := flat_map cell_stmts nb.

(** *** Names *)

(** The names an expression reads.  Attribute names, method names and
    keywords are not names of the notebook. *)
Fixpoint names (e : expr) : list string :=
  match e with
  | EName x => [x]
  | EStr _ | EInt _ | EBool _ | ENone => []
  | EList items => flat_map names items
  | EDict items => flat_map (λ kv, names kv.2) items
  | EAttr obj _ => names obj
  | ECall f a k => names f ++ flat_map names a ++ flat_map (λ kv, names kv.2) k
  | ELShift l r => names l ++ names r
  end.

(** The parts of a string between the occurrences of the one-character
    string [sep]. *)
Fixpoint split_on (sep : string) (s : string) : list string :=
  match s with
  | EmptyString => [EmptyString]
  | String a s' =>
      match split_on sep s' with
      | [] => [String a EmptyString]
      | h :: t =>
          if String.eqb (String a EmptyString) sep
          then EmptyString :: h :: t
          else String a h :: t
      end
  end.

Definition stmt_uses (s : stmt) : list string :=
  match s with
  | SAssign _ e | SExpr e => names e
  | _ => []
  end.

(** [import a.b] binds [a]; [import m as x] binds [x]; [from m import xs]
    binds [xs]; an assignment binds its target. *)
Definition stmt_binds (s : stmt) : list string :=
  match s with
  | SImport m => take 1 (split_on "." m)
  | SImportAs _ x => [x]
  | SFromImport _ xs => xs
  | SAssign x _ => [x]
  | SExpr _ => []
  end.

(** The builtin names the notebooks use. *)
Definition builtins : list string := ["list"; "dict"].

(** *** Defined before use *)

Section DefUse.

Context {A : Type} (uses binds : A → list string).

(** Walks the list once, with everything bound so far. *)
Fixpoint def_use (bound : list string) (l : list A) : bool :=
  match l with
  | [] => true
  | a :: l' =>
      forallb (λ x, bool_decide (x ∈ bound)) (uses a) && def_use (binds a ++ bound) l'
  end.

(** What an element uses is bound at the start or by an earlier element. *)
Definition defined_before_use (bound : list string) (l : list A) : Prop :=
  ∀ i a x, l !! i = Some a → x ∈ uses a →
    x ∈ bound ∨ ∃ j d, j < i ∧ l !! j = Some d ∧ x ∈ binds d.

End DefUse.


(** *** Keywords *)

(** The keyword lists of the calls and the key lists of the dict displays
    inside an expression. *)
Fixpoint keyword_lists (e : expr) : list (list string) :=
  match e with
  | ECall f a k =>
      k.*1 :: keyword_lists f ++ flat_map keyword_lists a
           ++ flat_map (λ kv, keyword_lists kv.2) k
  | EDict items => items.*1 :: flat_map (λ kv, keyword_lists kv.2) items
  | EList items => flat_map keyword_lists items
  | EAttr obj _ => keyword_lists obj
  | ELShift l r => keyword_lists l ++ keyword_lists r
  | _ => []
  end.

Definition stmt_keyword_lists (s : stmt) : list (list string) :=
  match stmt_expr s with
  | Some e => keyword_lists e
  | None => []
  end.

(** *** Tokens *)

Definition nth_str (n : nat) (a : list expr) : list string :=
  match a !! n with
  | Some (EStr x) => [x]
  | _ => []
  end.

(** The names given to the token [f] inside an expression, [f('x', ...)]. *)
Fixpoint token_refs (f : string) (e : expr) : list string :=
  match e with
  | ECall g a k =>
      (if is_name f g then nth_str 0 a else [])
      ++ token_refs f g ++ flat_map (token_refs f) a
      ++ flat_map (λ kv, token_refs f kv.2) k
  | EList items => flat_map (token_refs f) items
  | EDict items => flat_map (λ kv, token_refs f kv.2) items
  | EAttr obj _ => token_refs f obj
  | ELShift l r => token_refs f l ++ token_refs f r
  | _ => []
  end.

Definition step_refs (f : string) (st : step) : list string :=
  flat_map (token_refs f) (args st) ++ flat_map (λ kv, token_refs f kv.2) (kwargs st).

(** *** Pipeline variables *)

(** [init_variable('x', ...)] declares [x]. *)
Definition var_decls (st : step) : list string :=
  if String.eqb (method st) "init_variable" then nth_str 0 (args st) else [].

(** [update_variable('x', ...)] writes [x]. *)
Definition var_target (st : step) : list string :=
  if String.eqb (method st) "update_variable" then nth_str 0 (args st) else [].

(** The variables a step names, through a [V] token or as the target of
    [update_variable]. *)
Definition var_refs (st : step) : list string := step_refs "V" st ++ var_target st.

(** The variables a step writes: the token of [save_to], and the target of
    [update_variable]. *)
Definition var_writes (st : step) : list string :=
  match kwarg (kwargs st) "save_to" with
  | Some e => token_refs "V" e
  | None => []
  end ++ var_target st.

(** The variables a step reads: every [V] token outside [save_to]. *)
Definition var_reads (st : step) : list string :=
  flat_map (token_refs "V") (args st)
  ++ flat_map (λ kv, if String.eqb kv.1 "save_to" then [] else token_refs "V" kv.2)
       (kwargs st).

(** [p.get_variable('x')]: the pipeline name and the variable. *)
Definition site_fetch (s : site) : list (string * string) :=
  if String.eqb (method (op s)) "get_variable" then
    match receiver s, args (op s) with
    | EName r, [EStr x] => [(r, x)]
    | _, _ => []
    end
  else [].

Definition fetches (nb : list cell) : list (string * string) :=
  flat_map site_fetch (sites nb).

(** The pipeline a name stands for: [x = t << split] stands for [t]. *)
Definition pipeline_of (nb : list cell) (x : string) : string :=
  default x (assoc (aliases nb) x).

(** The variables fetched from the pipeline [p] with [get_variable]. *)
Definition fetched_from (nb : list cell) (p : string) : list string :=
  flat_map (λ rx, if String.eqb (pipeline_of nb rx.1) p then [rx.2] else []) (fetches nb).

(** *** Models *)

(** [init_model(mode, class, 'name', ...)] and [import_model('name', p)]
    give the pipeline a model. *)
Definition model_defs (st : step) : list string :=
  if String.eqb (method st) "init_model" then nth_str 2 (args st)
  else if String.eqb (method st) "import_model" then nth_str 0 (args st)
  else [].

(** [train_model('name', ...)] and [predict_model('name', ...)] use one. *)
Definition model_uses (st : step) : list string :=
  if String.eqb (method st) "train_model" || String.eqb (method st) "predict_model"
  then nth_str 0 (args st) else [].

(** [import_model('name', p)]: the model and the pipeline it comes from. *)
Definition model_imports (st : step) : list (string * string) :=
  if String.eqb (method st) "import_model" then
    match args st with
    | [EStr n; EName p] => [(n, p)]
    | _ => []
    end
  else [].

(** [p.save_model_now('name', ...)]: the pipeline name and the model. *)
Definition site_save (s : site) : list (string * string) :=
  if String.eqb (method (op s)) "save_model_now" then
    match receiver s, args (op s) with
    | EName r, EStr n :: _ => [(r, n)]
    | _, _ => []
    end
  else [].

(** The models the pipeline named [x] builds with [init_model]. *)
Definition built_by (nb : list cell) (x : string) : list string :=
  flat_map (λ st, if String.eqb (method st) "init_model" then model_defs st else [])
    (steps_of nb x).

(** *** Config *)

Definition stmt_assign (s : stmt) : list (string * expr) :=
  match s with
  | SAssign x e => [(x, e)]
  | _ => []
  end.

(** The keys of the config a pipeline is built with:
    [x = Pipeline(config=c)...] with [c = dict(k=..., ...)]; none for a
    pipeline that starts from a dataset split. *)
Definition pipeline_config (nb : list cell) (x : string) : list string :=
  match assoc (flat_map stmt_assign (stmts nb)) x with
  | Some e =>
      match (chain e).1 with
      | ECall (EName f) _ kw =>
          if String.eqb f "Pipeline" then
            match kwarg kw "config" with
            | Some (EName c) => default [] (assoc (flat_map stmt_dict (stmts nb)) c)
            | _ => []
            end
          else []
      | _ => []
      end
  | None => []
  end.

(** *** Model inputs *)

(** The config dict of an [init_model] step. *)
Definition model_config (st : step) : list (string * expr) :=
  match kwarg (kwargs st) "config" with
  | Some (EDict items) => items
  | _ => []
  end.

(** The inputs a model config declares, ['inputs/<name>/...']. *)
Definition declared_inputs (items : list (string * expr)) : list string :=
  flat_map (λ kv, match split_on "/" kv.1 with
                  | g :: n :: _ => if String.eqb g "inputs" then [n] else []
                  | _ => []
                  end) items.

(** The inputs a block of the model is wired to, ['<block>/inputs': 'x']. *)
Definition block_inputs (items : list (string * expr)) : list string :=
  flat_map (λ kv, match split_on "/" kv.1, kv.2 with
                  | [_; l], EStr x => if String.eqb l "inputs" then [x] else []
                  | _, _ => []
                  end) items.

(** The inputs declared for the model [m] where the notebook builds it. *)
Definition inputs_of (nb : list cell) (m : string) : list string :=
  flat_map (λ p, flat_map (λ st,
      if String.eqb (method st) "init_model" && bool_decide (m ∈ model_defs st)
      then declared_inputs (model_config st) else []) (psteps p)) (pipelines nb).

Definition control_keywords : list string := ["fetches"; "save_to"; "use_lock"].

(** The batch components a train or predict step feeds to its model, each
    with the keyword it is passed under, if any. *)
Definition feeds (st : step) : list (option string * string) :=
  if String.eqb (method st) "train_model" || String.eqb (method st) "predict_model" then
    flat_map (λ e, (λ c, (None, c)) <$> token_refs "B" e) (drop 1 (args st))
    ++ flat_map (λ kv, if bool_decide (kv.1 ∈ control_keywords) then []
                       else (λ c, (Some kv.1, c)) <$> token_refs "B" kv.2) (kwargs st)
  else [].

(** *** The execution record *)

Definition cell_count (c : cell) : option nat :=
  match c with
  | Code n _ _ => Some n
  | Markdown _ => None
  end.

(** Every value a cell displays carries the execution count of the cell. *)
Definition results_numbered (c : cell) : Prop :=
  match c with
  | Code n _ outs =>
      Forall (λ o, match o with OResult k _ => k = n | _ => True end) outs
  | Markdown _ => True
  end.

(** *** The two notebooks side by side *)

(** The methods the two notebooks call with different arguments. *)
Definition differing : list string :=
  ["to_array"; "train_model"; "predict_model"; "gather_metrics"; "save_model_now"].

Definition same_call (s t : site) : Prop :=
  at_cell s = at_cell t ∧ bound_to s = bound_to t ∧ receiver s = receiver t ∧
  method (op s) = method (op t) ∧
  var_reads (op s) = var_reads (op t) ∧ var_writes (op s) = var_writes (op t) ∧
  model_defs (op s) = model_defs (op t) ∧ model_uses (op s) = model_uses (op t) ∧
  (feeds (op s)).*2 = (feeds (op t)).*2 ∧
  (method (op s) ∉ differing → op s = op t).

End Static.

(** * Properties *)

Import Nb Facts Engine Program.

(** ** Tools *)

Lemma each_notebook (P : list cell → Prop) :
  P Torch.notebook → P TF.notebook → ∀ nb, nb ∈ notebooks → P nb.
Proof.
  intros HT HF nb Hin. unfold notebooks in Hin.
  apply elem_of_cons in Hin as [->|Hin]; [done|].
  apply elem_of_cons in Hin as [->|Hin]; [done|].
  by apply elem_of_nil in Hin.
Qed.

(** Case analysis on the notebook. *)
Ltac by_notebook :=
  let nb := fresh "nb" in
  let H := fresh "H" in
  intros nb H; pattern nb; revert nb H; apply each_notebook; cbv beta.

(** From a property of every element of a list to [Forall]. *)
Ltac as_Forall := refine (proj1 (Forall_forall _ _) _).

Lemma torch_in_notebooks : Torch.notebook ∈ notebooks.
Proof. unfold notebooks. left. Defined.

Lemma tf_in_notebooks : TF.notebook ∈ notebooks.
Proof. unfold notebooks. right. left. Defined.

(** Reading a chain back gives the steps it was written with. *)
Lemma chain_dot e steps :
  chain (dot e steps) = ((chain e).1, (chain e).2 ++ steps).
Proof.
  unfold dot. revert e. induction steps as [|s steps IH]; intros e; simpl.
  - rewrite app_nil_r. by destruct (chain e).
  - rewrite IH. destruct s as [m a k]. simpl.
    destruct (chain e) as [root ss]. simpl. by rewrite <- app_assoc.
Qed.

Lemma chain_dot_name x steps : chain (dot (EName x) steps) = (EName x, steps).
Proof. by rewrite chain_dot. Qed.

Lemma in_unitb_correct d : in_unitb d = true → in_unit d.
Proof.
  unfold in_unitb, in_unit, to_Q. intros [H0 H1]%andb_true_iff.
  apply Z.leb_le in H0, H1.
  assert (Hp : (0 < 10 ^ Z.of_nat (scale d))%Z) by (apply Z.pow_pos_nonneg; lia).
  unfold Qle; simpl. rewrite Z2Pos.id by exact Hp. split; lia.
Qed.

(** ** The entry point *)

(** C1, as the spec states it, fails: the training run of the PyTorch
    notebook passes the keyword [bar], which is none of the six parameters
    the spec lists (the spec calls it [progress_bar]). *)
Lemma C1_run_is_called_with_bar :
  ¬ (∀ nb, nb ∈ notebooks → runs_through spec_run_parameters nb).
Proof.
  intros H.
  assert (Hs : Site 18 None (EName "train_pipeline") false Shared.train_run_step
               ∈ run_calls Torch.notebook) by (vm_compute; left).
  destruct (H _ torch_in_notebooks) as (_ & _ & Hall).
  destruct (Hall _ Hs) as [_ Hk].
  rewrite Forall_forall in Hk.
  specialize (Hk "bar" ltac:(vm_compute; repeat constructor)).
  apply (bool_decide_pack _) in Hk. vm_compute in Hk. exact Hk.
Qed.

(** A call that gives the batch size by position and otherwise keywords of
    [run] passes only parameters of [run]. *)
Lemma passes_batch_size_only (s : step) :
  passes_batch_size run_keywords s → passes_only code_run_parameters s.
Proof. intros (Ha & _ & Hk). unfold passes_only. rewrite Ha. split; [simpl; lia|done]. Qed.

(** C1, amended: in each notebook both pipelines are executed through
    [run]; every [run] call passes the batch size by position, as the
    constant [BATCH_SIZE] and with no other positional argument, and
    otherwise only keywords among [shuffle], [n_epochs], [drop_last],
    [prefetch] and [bar], none of them twice. *)
Theorem C1_run_arguments :
  ∀ nb, nb ∈ notebooks →
    runs_with_batch_size ["shuffle"; "n_epochs"; "drop_last"; "prefetch"; "bar"] nb.
Proof.
  by_notebook; unfold runs_with_batch_size.
  all: split; [eexists; vm_compute; reflexivity|].
  all: split; [eexists; vm_compute; reflexivity|].
  all: split; [eexists; vm_compute; reflexivity|].
  all: as_Forall; vm_compute (run_calls _).
  all: repeat (apply Forall_cons; split;
         [ split; [reflexivity|]; split;
             [ apply (bool_decide_unpack _); vm_compute; exact I
             | vm_compute; repeat constructor ] |]).
  all: apply Forall_nil_2.
Qed.

Lemma C1_run_arguments_witness :
  Torch.notebook ∈ notebooks ∧
  Site 18 None (EName "train_pipeline") false Shared.train_run_step
    ∈ run_calls Torch.notebook ∧
  passes_batch_size ["shuffle"; "n_epochs"; "drop_last"; "prefetch"; "bar"]
    Shared.train_run_step.
Proof.
  assert (Hs : Site 18 None (EName "train_pipeline") false Shared.train_run_step
               ∈ run_calls Torch.notebook) by (vm_compute; left).
  split; [exact torch_in_notebooks|]. split; [exact Hs|].
  exact (proj2 (proj2 (proj2 (C1_run_arguments _ torch_in_notebooks))) _ Hs).
Defined.

(** ** The course of a notebook *)

(** C2: each notebook runs the training pipeline once, with [n_epochs=1];
    after that run the test pipeline gathers metrics and the metrics are
    evaluated; after that the model is saved with
    [save_model_now(name, path=...)] on the training pipeline. *)
Theorem C2_train_one_epoch_measure_save :
  ∀ nb, nb ∈ notebooks → trains_measures_saves nb.
Proof.
  by_notebook; unfold trains_measures_saves.
  all: do 3 eexists; vm_compute.
  all: repeat match goal with |- _ ∧ _ => split end.
  all: try reflexivity.
  all: cbn.
  all: try lia.
  all: try discriminate.
  all: try (do 2 eexists; split; reflexivity).
  all: repeat (apply Forall_cons; split; [lia|]).
  all: apply Forall_nil_2.
Qed.

Lemma C2_train_one_epoch_measure_save_witness :
  TF.notebook ∈ notebooks ∧ trains_measures_saves TF.notebook.
Proof.
  split; [exact tf_in_notebooks|].
  exact (C2_train_one_epoch_measure_save _ tf_in_notebooks).
Defined.

(** ** The order of the steps and the tokens *)

(** C3, as the spec states it, fails: the test pipeline of the PyTorch
    notebook imports its model before it initializes its variables, so its
    steps are not in the order the spec gives. *)
Lemma C3_test_pipeline_imports_model_first :
  ¬ (∀ nb, nb ∈ notebooks → ∀ p, p ∈ pipelines nb →
       in_spec_order (psteps p) ∧ Forall step_deferred_only (psteps p)).
Proof.
  intros H.
  assert (Hp : Pipeline "test_pipeline" (declared Torch.test_pipeline_steps)
               ∈ pipelines Torch.notebook) by (vm_compute; right; left).
  destruct (H _ torch_in_notebooks _ Hp) as [Hord _].
  vm_compute in Hord. discriminate.
Qed.

(** C3, amended: the training template declares, in this order, two
    variable initializations, the model initialization, the array
    conversion, the train step and a variable update (no metrics are
    gathered there); the test pipeline declares the model import, two
    variable initializations, the array conversion, the predict step and the
    metrics gathering.  In both, what a step takes from the batch, the
    config, the dataset or the variables comes through tokens [B], [C], [D],
    [V] only. *)
Theorem C3_step_order_and_tokens :
  ∀ nb, nb ∈ notebooks → ∀ p, p ∈ pipelines nb →
    (pname p = "train_template" ∧ kinds (psteps p) = train_kinds ∨
     pname p = "test_pipeline" ∧ kinds (psteps p) = test_kinds) ∧
    Forall step_deferred_only (psteps p).
Proof.
  by_notebook; as_Forall; vm_compute.
  all: repeat (apply Forall_cons; split;
         [split; [first [left; split; reflexivity | right; split; reflexivity]
                 | repeat constructor] |]).
  all: apply Forall_nil_2.
Qed.

Lemma C3_step_order_and_tokens_witness :
  Torch.notebook ∈ notebooks ∧
  Pipeline "test_pipeline" (declared Torch.test_pipeline_steps) ∈ pipelines Torch.notebook ∧
  kinds (declared Torch.test_pipeline_steps) = test_kinds ∧
  Forall step_deferred_only (declared Torch.test_pipeline_steps).
Proof.
  assert (Hp : Pipeline "test_pipeline" (declared Torch.test_pipeline_steps)
               ∈ pipelines Torch.notebook) by (vm_compute; right; left).
  split; [exact torch_in_notebooks|]. split; [exact Hp|].
  destruct (C3_step_order_and_tokens _ torch_in_notebooks _ Hp) as [[[E _]|[_ K]] D].
  - vm_compute in E. discriminate.
  - split; [exact K | exact D].
Defined.

(** ** The pipeline API *)

(** C4, as the spec states it, fails: [to_array], a step of the training
    template, is not in the spec's list of operations. *)
Lemma C4_to_array_is_not_listed :
  ¬ (∀ nb, nb ∈ notebooks → ∀ m, m ∈ methods_used nb → m ∈ spec_api).
Proof.
  intros H.
  specialize (H _ torch_in_notebooks "to_array" ltac:(vm_compute; repeat constructor)).
  apply (bool_decide_pack _) in H. vm_compute in H. exact H.
Qed.

(** C4, amended: the operations the notebooks invoke on a pipeline or on
    the metrics object are the seven the spec lists and [import_model],
    [to_array], [update_variable], [run] and [get_variable]; each notebook
    uses all twelve. *)
Theorem C4_methods_used :
  ∀ nb, nb ∈ notebooks → ∀ m, m ∈ methods_used nb ↔ m ∈ code_api.
Proof.
  by_notebook; intros m; split; intros H.
  all: vm_compute in H; vm_compute.
  all: repeat (apply elem_of_cons in H as [->|H]; [repeat constructor|]).
  all: by apply elem_of_nil in H.
Qed.

Lemma C4_methods_used_witness :
  Torch.notebook ∈ notebooks ∧
  ("to_array" ∈ methods_used Torch.notebook ↔ "to_array" ∈ code_api).
Proof.
  split; [exact torch_in_notebooks|].
  exact (C4_methods_used _ torch_in_notebooks "to_array").
Defined.

(** ** Metrics *)

(** C6: every number the notebooks record for [metrics.evaluate(...)], the
    accuracy and each per-class false positive and false negative rate, lies
    in the closed interval from 0 to 1. *)
Theorem C6_metrics_in_unit_interval :
  ∀ nb, nb ∈ notebooks → ∀ e, e ∈ calls_of "evaluate" nb →
    ∀ r, cell_result nb (at_cell e) = Some r → ∀ d, d ∈ numbers r → in_unit d.
Proof.
  by_notebook; as_Forall; vm_compute (calls_of _ _).
  all: repeat (apply Forall_cons; split;
         [ intros r Hr; vm_compute in Hr; injection Hr as <-;
           intros d Hd; apply in_unitb_correct;
           revert d Hd; as_Forall; vm_compute; repeat constructor |]).
  all: apply Forall_nil_2.
Qed.

Lemma C6_metrics_in_unit_interval_witness :
  TF.notebook ∈ notebooks ∧
  Site 28 None (EName "metrics") true Shared.evaluate_accuracy_step
    ∈ calls_of "evaluate" TF.notebook ∧
  cell_result TF.notebook 28 = Some (RFloat (Dec 9671576433121019 16)) ∧
  Dec 9671576433121019 16 ∈ numbers (RFloat (Dec 9671576433121019 16)) ∧
  in_unit (Dec 9671576433121019 16).
Proof.
  assert (He : Site 28 None (EName "metrics") true Shared.evaluate_accuracy_step
               ∈ calls_of "evaluate" TF.notebook) by (vm_compute; left).
  assert (Hr : cell_result TF.notebook 28 = Some (RFloat (Dec 9671576433121019 16)))
    by reflexivity.
  assert (Hd : Dec 9671576433121019 16 ∈ numbers (RFloat (Dec 9671576433121019 16)))
    by (simpl; left).
  split; [exact tf_in_notebooks|]. split; [exact He|]. split; [exact Hr|].
  split; [exact Hd|].
  exact (C6_metrics_in_unit_interval _ tf_in_notebooks _ He _ Hr _ Hd).
Defined.

(** ** The training lock *)

(** C7: both notebooks say in prose that training runs under a thread-lock,
    one batch after another, and the [train_model] step of the PyTorch
    notebook asks for it with [use_lock=True]; the [train_model] step of
    the TensorFlow notebook passes [fetches], [images], [labels] and
    [save_to] and no [use_lock], so that nothing in that notebook asks for
    the lock its prose describes. *)
Theorem C7_tf_train_model_is_given_no_lock :
  Forall (λ nb, Exists (λ c, mentions "thread-lock one batch after another" c = true) nb)
    notebooks ∧
  (∃ s, calls_of "train_model" Torch.notebook = [s] ∧ uses_lock s) ∧
  (∃ s, calls_of "train_model" TF.notebook = [s] ∧
        (kwargs (op s)).*1 = ["fetches"; "images"; "labels"; "save_to"] ∧
        kwarg (kwargs (op s)) "use_lock" = None ∧ ¬ uses_lock s) ∧
  ¬ (∀ nb, nb ∈ notebooks → ∀ s, s ∈ calls_of "train_model" nb → uses_lock s).
Proof.
  split; [|split; [|split]].
  - repeat (apply Forall_cons; split;
      [ apply Exists_exists; exists Shared.md_lock; split;
          [vm_compute; repeat constructor | vm_compute; reflexivity] |]).
    apply Forall_nil_2.
  - eexists; split; reflexivity.
  - eexists; split; [reflexivity|]. split; [reflexivity|]. split; [reflexivity|].
    unfold uses_lock. vm_compute. discriminate.
  - intros H.
    assert (Hs : Exists (λ s, kwarg (kwargs (op s)) "use_lock" = None)
                   (calls_of "train_model" TF.notebook))
      by (vm_compute; left; reflexivity).
    apply Exists_exists in Hs as (s & Hs & Hnone).
    specialize (H _ tf_in_notebooks s Hs). unfold uses_lock in H. congruence.
Qed.

(** ** The engine: batches *)

Lemma concat_slices {A : Type} (size k : nat) (l : list A) :
  concat ((λ i, take size (drop (i * size) l)) <$> seq 0 k) = take (k * size) l.
Proof.
  induction k as [|k IH]; [done|].
  rewrite seq_S, fmap_app, concat_app, IH. simpl.
  rewrite app_nil_r, take_take_drop. f_equal. lia.
Qed.

Lemma n_batches_keep n size : 0 < size → n ≤ n_batches n size false * size.
Proof.
  intros Hs. unfold n_batches.
  pose proof (Nat.div_mod_eq (n + size - 1) size) as E.
  pose proof (Nat.mod_upper_bound (n + size - 1) size ltac:(lia)) as U.
  nia.
Qed.

Lemma n_batches_drop n size : n_batches n size true * size ≤ n.
Proof.
  unfold n_batches. destruct size; [simpl; lia|].
  pose proof (Nat.div_mod_eq n (S size)). nia.
Qed.

(** Without [drop_last] the batches of an epoch are the whole order. *)
Lemma epoch_batches_all size (order : list sample) :
  0 < size → concat (epoch_batches size false order) = order.
Proof.
  intros Hs. unfold epoch_batches. rewrite concat_slices.
  apply take_ge. by apply n_batches_keep.
Qed.

(** With [drop_last] every batch is full. *)
Lemma epoch_batches_full size (order : list sample) :
  Forall (λ b, length b = size) (epoch_batches size true order).
Proof.
  unfold epoch_batches. apply Forall_fmap, Forall_forall. intros i Hi.
  apply elem_of_seq in Hi. simpl.
  rewrite length_take, length_drop.
  pose proof (n_batches_drop (length order) size).
  unfold n_batches in *. nia.
Qed.

(** With [drop_last] the items after the last full batch are left out. *)
Lemma epoch_batches_rest size (order : list sample) :
  0 < size →
  order = concat (epoch_batches size true order) ++ drop (length order / size * size) order
  ∧ length (drop (length order / size * size) order) = length order mod size.
Proof.
  intros Hs. unfold epoch_batches. rewrite concat_slices. simpl.
  split; [by rewrite take_drop|].
  rewrite length_drop. pose proof (Nat.div_mod_eq (length order) size). lia.
Qed.

Lemma schedule_one_epoch permute cfg split :
  n_epochs cfg = 1 →
  schedule permute cfg split =
    epoch_batches (batch_size cfg) (drop_last cfg)
      (if shuffle cfg then permute 0 split else split).
Proof. intros E. unfold schedule. rewrite E. simpl. apply app_nil_r. Qed.

(** The totals of the recorded progress bars, 937 and 157 batches, are
    what the schedule gives for splits of 60000 and 10000 items, the sizes
    of the MNIST splits. *)
Lemma recorded_batch_counts :
  cell_progress Torch.notebook 18 = Some (937, n_batches (N.to_nat 60000) 64 true) ∧
  cell_progress TF.notebook 18 = Some (937, n_batches (N.to_nat 60000) 64 true) ∧
  cell_progress Torch.notebook 23 = Some (156, n_batches (N.to_nat 10000) 64 false) ∧
  cell_progress TF.notebook 23 = Some (156, n_batches (N.to_nat 10000) 64 false).
Proof. repeat split; vm_compute; reflexivity. Qed.

(** ** The engine: actions *)

Section Execution.

Context {weights : Type} `{!Model weights}.
Implicit Types (w : world weights) (ps : pstate) (a : action) (b : batch).

Lemma bind_some {A B : Type} (f : A → option B) (x : A) : Some x ≫= f = f x.
Proof. done. Qed.

Lemma exec_actions_cons self b a acts w :
  exec_actions self b (a :: acts) w = exec_action self b a w ≫= exec_actions self b acts.
Proof. done. Qed.

Lemma exec_batches_cons self acts b bs w :
  exec_batches self acts (b :: bs) w
  = exec_actions self b acts w ≫= exec_batches self acts bs.
Proof. done. Qed.

Lemma set_pipe_lookup self ps w : pipes (set_pipe self ps w) !! self = Some ps.
Proof. apply lookup_insert_eq. Qed.

Lemma set_pipe_lookup_ne self other ps w :
  other ≠ self → pipes (set_pipe self ps w) !! other = pipes w !! other.
Proof. intros. by apply lookup_insert_ne. Qed.

Lemma set_pipe_twice self ps ps' w :
  set_pipe self ps' (set_pipe self ps w) = set_pipe self ps' w.
Proof. unfold set_pipe. simpl. by rewrite insert_insert_eq. Qed.

(** *** What an action leaves alone *)

Lemma exec_action_other self b a w w' other :
  exec_action self b a w = Some w' → other ≠ self →
  pipes w' !! other = pipes w !! other.
Proof.
  intros H Hne. unfold exec_action in H.
  destruct a; simplify_option_eq; repeat case_match; simplify_option_eq;
    simpl; try done; by rewrite lookup_insert_ne.
Qed.

Lemma exec_action_heap self b a w w' :
  reads_models a → exec_action self b a w = Some w' → heap w' = heap w.
Proof.
  intros Ha H. unfold exec_action in H.
  destruct a; simpl in Ha; try done; simplify_option_eq; repeat case_match;
    simplify_option_eq; done.
Qed.

Lemma exec_actions_frame self b acts : ∀ w w' other,
  Forall reads_models acts → exec_actions self b acts w = Some w' → other ≠ self →
  heap w' = heap w ∧ pipes w' !! other = pipes w !! other.
Proof.
  induction acts as [|a acts IH]; intros w w' other Hall H Hne; simpl in H.
  - by simplify_eq.
  - apply Forall_cons in Hall as [Ha Hall].
    destruct (exec_action self b a w) as [w1|] eqn:E1; [|done]. simpl in H.
    destruct (IH _ _ other Hall H Hne) as [-> ->].
    split; [by eapply exec_action_heap | by eapply exec_action_other].
Qed.

Lemma exec_batches_frame self acts bs : ∀ w w' other,
  Forall reads_models acts → exec_batches self acts bs w = Some w' → other ≠ self →
  heap w' = heap w ∧ pipes w' !! other = pipes w !! other.
Proof.
  induction bs as [|b bs IH]; intros w w' other Hall H Hne; simpl in H.
  - by simplify_eq.
  - destruct (exec_actions self b acts w) as [w1|] eqn:E1; [|done]. simpl in H.
    destruct (IH _ _ other Hall H Hne) as [-> ->].
    by eapply exec_actions_frame.
Qed.

(** A run of a pipeline that neither trains nor builds a model leaves the
    heap of models and every other pipeline as they were. *)
Lemma run_batches_frame self acts bs w w' other :
  Forall reads_models acts → run_batches self acts bs w = Some w' → other ≠ self →
  heap w' = heap w ∧ pipes w' !! other = pipes w !! other.
Proof.
  intros Hall H Hne. unfold run_batches, init_run in H.
  destruct (pipes w !! self) as [ps|] eqn:E; [|done]. simpl in H.
  destruct (exec_batches_frame _ _ _ _ _ other Hall H Hne) as [-> ->].
  split; [done|]. simpl. by rewrite lookup_insert_ne.
Qed.

(** *** What an action does *)

Lemma exec_skip self b a w :
  is_Some (pipes w !! self) →
  match a with InitVariable _ _ | ToArray => True | _ => False end →
  exec_action self b a w = Some w.
Proof. intros [ps Hps] Ha. unfold exec_action. rewrite Hps. by destruct a. Qed.

Lemma exec_import self b name from w ps src l :
  pipes w !! self = Some ps → pipes w !! from = Some src → models src !! name = Some l →
  exec_action self b (ImportModel name from) w
  = Some (set_pipe self (set_model name l ps) w).
Proof.
  intros Hps Hsrc Hl. unfold exec_action.
  rewrite Hps. simpl. rewrite Hsrc. simpl. by rewrite Hl.
Qed.

Lemma exec_init_model_known self b name key w ps l :
  pipes w !! self = Some ps → key ∈ config ps → models ps !! name = Some l →
  exec_action self b (InitModel name key) w = Some w.
Proof.
  intros Hps Hk Hl. unfold exec_action. rewrite Hps. simpl.
  rewrite bool_decide_eq_true_2 by done. by rewrite Hl.
Qed.

Lemma exec_init_model_new self b name key w ps :
  pipes w !! self = Some ps → key ∈ config ps → models ps !! name = None →
  exec_action self b (InitModel name key) w
  = Some (World (heap w ++ [init_weights])
                (<[self := set_model name (length (heap w)) ps]> (pipes w))).
Proof.
  intros Hps Hk Hl. unfold exec_action. rewrite Hps. simpl.
  rewrite bool_decide_eq_true_2 by done. by rewrite Hl.
Qed.

Lemma write_declared d v ps old new :
  vars ps !! dvar d = Some old → store (dmode d) old v = Some new →
  write d v ps = Some (set_var (dvar d) new ps).
Proof. intros Ho Hs. unfold write. rewrite Ho. simpl. by rewrite Hs. Qed.

Lemma exec_train self b name d w ps l wt old new :
  pipes w !! self = Some ps → models ps !! name = Some l → heap w !! l = Some wt →
  vars ps !! dvar d = Some old → store (dmode d) old (VNum (loss wt b)) = Some new →
  exec_action self b (TrainModel name (Some d)) w
  = Some (World (<[l := fit wt b]> (heap w)) (<[self := set_var (dvar d) new ps]> (pipes w))).
Proof.
  intros Hps Hl Hwt Ho Hs. unfold exec_action. rewrite Hps. simpl. rewrite Hl. simpl.
  rewrite Hwt. simpl. by rewrite (write_declared _ _ _ _ _ Ho Hs).
Qed.

Lemma exec_predict self b name d w ps l wt old new :
  pipes w !! self = Some ps → models ps !! name = Some l → heap w !! l = Some wt →
  vars ps !! dvar d = Some old →
  store (dmode d) old (VLabels ((λ s, predict wt (image s)) <$> b)) = Some new →
  exec_action self b (PredictModel name (Some d)) w
  = Some (set_pipe self (set_var (dvar d) new ps) w).
Proof.
  intros Hps Hl Hwt Ho Hs. unfold exec_action. rewrite Hps. simpl. rewrite Hl. simpl.
  rewrite Hwt. simpl. by rewrite (write_declared _ _ _ _ _ Ho Hs).
Qed.

Lemma exec_gather self b p d w ps classes old new :
  pipes w !! self = Some ps → vars ps !! p = Some (VLabels classes) →
  vars ps !! dvar d = Some old →
  store (dmode d) old (VMetrics (zip (label <$> b) classes)) = Some new →
  exec_action self b (GatherMetrics p (Some d)) w
  = Some (set_pipe self (set_var (dvar d) new ps) w).
Proof.
  intros Hps Hp Ho Hs. unfold exec_action. rewrite Hps. simpl. rewrite Hp. simpl.
  by rewrite (write_declared _ _ _ _ _ Ho Hs).
Qed.

Lemma exec_update self b x src m w ps v old new :
  pipes w !! self = Some ps → vars ps !! src = Some v →
  vars ps !! x = Some old → store m old v = Some new →
  exec_action self b (UpdateVariable x src m) w
  = Some (set_pipe self (set_var x new ps) w).
Proof.
  intros Hps Hv Ho Hs. unfold exec_action. rewrite Hps. simpl. rewrite Hv. simpl.
  by rewrite (write_declared (Dest x m) _ _ _ _ Ho Hs).
Qed.

End Execution.

(** ** The test pipeline on the engine *)

Section Testing.

Context {weights : Type} `{!Model weights}.
Implicit Types (w : world weights) (ps : pstate) (b : batch).

(** One batch through the test pipeline. *)
Lemma test_batch m l b w tp ps wt pv mv new :
  pipes w !! "train_pipeline" = Some tp → models tp !! "conv_nn" = Some l →
  heap w !! l = Some wt →
  pipes w !! "test_pipeline" = Some ps →
  vars ps !! "predictions" = Some pv → vars ps !! "metrics" = Some mv →
  store m mv (VMetrics (zip (label <$> b) ((λ s, predict wt (image s)) <$> b))) = Some new →
  exec_actions "test_pipeline" b (test_acts m) w
  = Some (set_pipe "test_pipeline"
            (set_var "metrics" new
               (set_var "predictions" (VLabels ((λ s, predict wt (image s)) <$> b))
                  (set_model "conv_nn" l ps))) w).
Proof.
  intros Ht Hl Hwt Hp Hpv Hmv Hst. unfold test_acts.
  rewrite exec_actions_cons, (exec_import _ _ _ _ _ _ _ _ Hp Ht Hl), bind_some.
  do 3 (rewrite exec_actions_cons, exec_skip, bind_some;
        [ | by rewrite set_pipe_lookup | done]).
  rewrite exec_actions_cons.
  erewrite exec_predict;
    [ | apply set_pipe_lookup | apply lookup_insert_eq | exact Hwt | exact Hpv | done].
  rewrite bind_some, set_pipe_twice, exec_actions_cons.
  erewrite exec_gather;
    [ | apply set_pipe_lookup | apply lookup_insert_eq | | exact Hst].
  - rewrite bind_some. simpl. by rewrite set_pipe_twice.
  - simpl. by rewrite lookup_insert_ne.
Qed.

Lemma test_batch_ready m l b w :
  ready l w → ∃ w', exec_actions "test_pipeline" b (test_acts m) w = Some w' ∧ ready l w'.
Proof.
  intros (tp & ps & Ht & Hl & [wt Hwt] & Hp & [pv Hpv] & Hm).
  assert (∃ mv seen, vars ps !! "metrics" = Some mv ∧
            store m mv (VMetrics (zip (label <$> b) ((λ s, predict wt (image s)) <$> b)))
            = Some (VMetrics seen))
    as (mv & seen & Hmv & Hst).
  { destruct Hm as [Hm|[seen Hm]], m; eexists _, _; (split; [exact Hm|]); done. }
  eexists. split; [by eapply test_batch|].
  exists tp, (set_var "metrics" (VMetrics seen)
               (set_var "predictions" (VLabels ((λ s, predict wt (image s)) <$> b))
                  (set_model "conv_nn" l ps))).
  rewrite set_pipe_lookup, set_pipe_lookup_ne by done.
  do 2 (split; [done|]). split; [by exists wt|]. split; [done|]. split.
  - simpl. rewrite lookup_insert_ne by done. rewrite lookup_insert_eq. by eexists.
  - right. exists seen. simpl. by rewrite lookup_insert_eq.
Qed.

Lemma test_batches_ready m l bs : ∀ w,
  ready l w → ∃ w', exec_batches "test_pipeline" (test_acts m) bs w = Some w' ∧ ready l w'.
Proof.
  induction bs as [|b bs IH]; intros w Hw.
  - by exists w.
  - destruct (test_batch_ready m l b w Hw) as (w1 & E & Hw1).
    rewrite exec_batches_cons, E, bind_some. by apply IH.
Qed.

Lemma test_acts_read m : Forall reads_models (test_acts m).
Proof. unfold test_acts. repeat constructor. Qed.

(** The test run returns, whatever the batches, and leaves the models and
    the training pipeline as they were. *)
Lemma test_run_frame m bs w tp l :
  pipes w !! "train_pipeline" = Some tp → models tp !! "conv_nn" = Some l →
  is_Some (heap w !! l) →
  ∃ w', run_batches "test_pipeline" (test_acts m) bs
          (set_pipe "test_pipeline" (new_pipeline []) w) = Some w'
        ∧ heap w' = heap w ∧ pipes w' !! "train_pipeline" = Some tp.
Proof.
  intros Ht Hl Hwt.
  set (w0 := set_pipe "test_pipeline" (new_pipeline []) w).
  assert (∃ w', run_batches "test_pipeline" (test_acts m) bs w0 = Some w') as [w' Hrun].
  { unfold run_batches, init_run. subst w0. rewrite set_pipe_lookup, bind_some.
    rewrite set_pipe_twice.
    edestruct (test_batches_ready m l bs) as (w' & Hw' & _); [|by eexists].
    exists tp, (foldl init_action (new_pipeline []) (test_acts m)).
    rewrite set_pipe_lookup, set_pipe_lookup_ne by done.
    do 4 (split; [done|]). split.
    - exists VNone. by vm_compute.
    - left. by vm_compute. }
  exists w'. split; [done|].
  destruct (run_batches_frame _ _ _ _ _ "train_pipeline" (test_acts_read m) Hrun) as [-> ->];
    [done|].
  split; [done|]. subst w0. by rewrite set_pipe_lookup_ne.
Qed.

End Testing.

(** C8: the test pipeline of each notebook has no [train_model] and no
    [init_model] step; its model comes from
    [import_model('conv_nn', train_pipeline)] alone and it predicts with it.
    On the engine, the test run over any split returns and leaves the
    models and the state of the training pipeline as they were. *)
Theorem C8_test_leaves_model_unchanged
    {weights : Type} `{!Model weights} (permute : nat → list sample → list sample) :
  ∀ nb, nb ∈ notebooks →
    only_predicts nb ∧
    ∀ split (w : world weights) tp l,
      pipes w !! "train_pipeline" = Some tp → models tp !! "conv_nn" = Some l →
      is_Some (heap w !! l) →
      ∃ w', test permute nb split w = Some w' ∧
            heap w' = heap w ∧ pipes w' !! "train_pipeline" = Some tp.
Proof.
  by_notebook.
  all: split; [vm_compute; repeat split; reflexivity|].
  all: intros split w tp l Ht Hl Hwt; unfold test, test_on.
  - change (config_of Torch.notebook "test_pipeline") with
      (Some (RunConfig 64 true 1 false None true)).
    change (test_actions Torch.notebook) with (Some (test_acts Write)).
    rewrite !bind_some. by eapply test_run_frame.
  - change (config_of TF.notebook "test_pipeline") with
      (Some (RunConfig 64 true 1 false None true)).
    change (test_actions TF.notebook) with (Some (test_acts Append)).
    rewrite !bind_some. by eapply test_run_frame.
Qed.

Lemma C8_test_leaves_model_unchanged_witness :
  Torch.notebook ∈ notebooks ∧
  pipes after_training !! "train_pipeline" = Some held_model ∧
  models held_model !! "conv_nn" = Some 0 ∧
  is_Some (heap after_training !! 0) ∧
  ∃ w', test (λ _, reverse) Torch.notebook (items 70) after_training = Some w' ∧
        heap w' = [3] ∧ pipes w' !! "train_pipeline" = Some held_model.
Proof.
  assert (Hp : pipes after_training !! "train_pipeline" = Some held_model) by reflexivity.
  assert (Hm : models held_model !! "conv_nn" = Some 0) by reflexivity.
  assert (Hh : is_Some (heap after_training !! 0)) by (exists 3; reflexivity).
  split; [exact torch_in_notebooks|]. split; [exact Hp|]. split; [exact Hm|].
  split; [exact Hh|].
  exact (proj2 (C8_test_leaves_model_unchanged (λ _, reverse) _ torch_in_notebooks)
           (items 70) after_training held_model 0 Hp Hm Hh).
Defined.

(** ** Metrics on the engine *)

Section Measuring.

Context {weights : Type} `{!Model weights}.
Implicit Types (w : world weights) (ps : pstate) (b : batch).




Lemma gathered_over_append wt bs :
  gathered_over Append wt bs = flat_map (gathered wt) bs.
Proof.
  unfold gathered_over.
  assert (G : ∀ acc, foldl (gather_step Append wt) acc bs = acc ++ flat_map (gathered wt) bs).
  { induction bs as [|b bs IH]; intros acc; simpl; [by rewrite app_nil_r|].
    by rewrite IH, app_assoc. }
  apply G.
Qed.

Lemma gathered_over_write wt bs b :
  gathered_over Write wt (bs ++ [b]) = gathered wt b.
Proof. unfold gathered_over. by rewrite foldl_app. Qed.

End Measuring.


Lemma metric_unknown classes obs opts n :
  n ∉ metric_names → metric classes obs opts n = None.
Proof.
  intros Hn. unfold metric.
  destruct (String.eqb n "accuracy") eqn:E1;
    [apply String.eqb_eq in E1 as ->; destruct Hn; vm_compute; repeat constructor|].
  destruct (String.eqb n "false_positive_rate") eqn:E2;
    [apply String.eqb_eq in E2 as ->; destruct Hn; vm_compute; repeat constructor|].
  destruct (String.eqb n "false_negative_rate") eqn:E3;
    [apply String.eqb_eq in E3 as ->; destruct Hn; vm_compute; repeat constructor|].
  done.
Qed.








(** ** The training pipeline on the engine *)

Section Training.

Context {weights : Type} `{!Model weights}.
Implicit Types (w : world weights) (ps : pstate) (b : batch).

(** The last three actions of the training template on one batch. *)
Lemma train_tail m b w ps wt lh cl new :
  pipes w !! "train_pipeline" = Some ps → models ps !! "conv_nn" = Some 0 →
  heap w = [wt] →
  vars ps !! "loss_history" = Some lh → vars ps !! "current_loss" = Some cl →
  store m lh (VNum (loss wt b)) = Some new →
  exec_actions "train_pipeline" b
    [ToArray; TrainModel "conv_nn" (Some (Dest "current_loss" Write));
     UpdateVariable "loss_history" "current_loss" m] w
  = Some (World [fit wt b]
            (<["train_pipeline" :=
                 set_var "loss_history" new (set_var "current_loss" (VNum (loss wt b)) ps)]>
               (pipes w))).
Proof.
  intros Hps Hm Hh Hlh Hcl Hst.
  rewrite exec_actions_cons, exec_skip, bind_some; [ | by rewrite Hps | done].
  rewrite exec_actions_cons.
  erewrite exec_train; [ | exact Hps | exact Hm | by rewrite Hh | exact Hcl | done].
  rewrite bind_some, exec_actions_cons.
  erewrite exec_update; [ | apply lookup_insert_eq | apply lookup_insert_eq | | exact Hst].
  - rewrite bind_some. simpl. unfold set_pipe. simpl. by rewrite insert_insert_eq, Hh.
  - simpl. by rewrite lookup_insert_ne.
Qed.

Lemma train_batch m b w wt lh cl new :
  training wt lh cl w → store m lh (VNum (loss wt b)) = Some new →
  ∃ w', exec_actions "train_pipeline" b (train_acts m) w = Some w' ∧
        training (fit wt b) new (VNum (loss wt b)) w'.
Proof.
  intros (Hh & ps & Hps & Hk & Hm & Hlh & Hcl) Hst. unfold train_acts.
  do 2 (rewrite exec_actions_cons, exec_skip, bind_some; [ | by rewrite Hps | done]).
  rewrite exec_actions_cons, (exec_init_model_known _ _ _ _ _ _ _ Hps Hk Hm), bind_some.
  erewrite train_tail by done.
  eexists; split; [done|]. split; [done|].
  eexists. simpl. rewrite lookup_insert_eq. split; [done|].
  simpl. split; [done|]. split; [done|].
  rewrite lookup_insert_eq. split; [done|]. rewrite lookup_insert_ne by done.
  by rewrite lookup_insert_eq.
Qed.

(** The first batch builds the model. *)
Lemma first_batch m b w lh cl new :
  untrained lh cl w → store m lh (VNum (loss init_weights b)) = Some new →
  ∃ w', exec_actions "train_pipeline" b (train_acts m) w = Some w' ∧
        training (fit init_weights b) new (VNum (loss init_weights b)) w'.
Proof.
  intros (Hh & ps & Hps & Hk & Hm & Hlh & Hcl) Hst. unfold train_acts.
  do 2 (rewrite exec_actions_cons, exec_skip, bind_some; [ | by rewrite Hps | done]).
  rewrite exec_actions_cons, (exec_init_model_new _ _ _ _ _ _ Hps Hk Hm), bind_some.
  rewrite Hh. cbn [app length].
  erewrite train_tail;
    [ | apply lookup_insert_eq | apply lookup_insert_eq | done | exact Hlh | exact Hcl | exact Hst].
  eexists; split; [done|]. split; [done|].
  eexists. simpl. rewrite lookup_insert_eq. split; [done|].
  simpl. split; [done|]. split; [by rewrite lookup_insert_eq|].
  rewrite lookup_insert_eq. split; [done|]. rewrite lookup_insert_ne by done.
  by rewrite lookup_insert_eq.
Qed.

(** Writing with ['w']: after the batches, [loss_history] is the loss of
    the last one. *)
Lemma train_batches_write front : ∀ wt lh cl w b,
  training wt lh cl w →
  ∃ w', exec_batches "train_pipeline" (train_acts Write) (front ++ [b]) w = Some w' ∧
        training (trained wt (front ++ [b])) (VNum (loss (trained wt front) b))
                 (VNum (loss (trained wt front) b)) w'.
Proof.
  induction front as [|b0 front IH]; intros wt lh cl w b Hw.
  - destruct (train_batch Write b w wt lh cl _ Hw eq_refl) as (w' & E & Hw').
    exists w'. simpl app. by rewrite exec_batches_cons, E, bind_some.
  - destruct (train_batch Write b0 w wt lh cl _ Hw eq_refl) as (w1 & E & Hw1).
    simpl app. rewrite exec_batches_cons, E, bind_some.
    apply (IH _ _ _ _ b Hw1).
Qed.

(** Writing with ['a']: every batch adds its loss to the list. *)
Lemma train_batches_append bs : ∀ wt seen cl w,
  training wt (VList seen) cl w →
  ∃ w' cl', exec_batches "train_pipeline" (train_acts Append) bs w = Some w' ∧
            training (trained wt bs) (VList (seen ++ (VNum <$> losses wt bs))) cl' w'.
Proof.
  induction bs as [|b bs IH]; intros wt seen cl w Hw.
  - exists w, cl. simpl. by rewrite app_nil_r.
  - destruct (train_batch Append b w wt (VList seen) cl _ Hw eq_refl) as (w1 & E & Hw1).
    rewrite exec_batches_cons, E, bind_some.
    destruct (IH _ _ _ _ Hw1) as (w' & cl' & E' & Hw').
    exists w', cl'. split; [done|]. simpl. by rewrite <- app_assoc in Hw'.
Qed.

Lemma init_bound m nb :
  config_keys nb = ["model"] →
  ∃ w0, init_run "train_pipeline" (train_acts m) (bound nb) = Some w0 ∧
        untrained (VList []) VNone w0.
Proof.
  intros Hk. unfold init_run, bound. simpl. rewrite lookup_singleton_eq, bind_some.
  eexists; split; [done|]. split; [done|].
  eexists. rewrite set_pipe_lookup. split; [done|]. rewrite Hk.
  split; [by vm_compute; left|]. by vm_compute.
Qed.

Lemma train_write nb front b :
  config_keys nb = ["model"] →
  ∃ w', run_batches "train_pipeline" (train_acts Write) (front ++ [b]) (bound nb) = Some w' ∧
        training (trained init_weights (front ++ [b]))
          (VNum (loss (trained init_weights front) b))
          (VNum (loss (trained init_weights front) b)) w'.
Proof.
  intros Hk. destruct (init_bound Write nb Hk) as (w0 & E0 & Hw0).
  unfold run_batches. rewrite E0, bind_some.
  destruct front as [|b0 front].
  - destruct (first_batch Write b w0 _ _ _ Hw0 eq_refl) as (w' & E & Hw').
    exists w'. simpl app. by rewrite exec_batches_cons, E, bind_some.
  - destruct (first_batch Write b0 w0 _ _ _ Hw0 eq_refl) as (w1 & E & Hw1).
    simpl app. rewrite exec_batches_cons, E, bind_some.
    apply (train_batches_write front _ _ _ _ b Hw1).
Qed.

Lemma train_append nb bs :
  config_keys nb = ["model"] →
  ∃ w', run_batches "train_pipeline" (train_acts Append) bs (bound nb) = Some w' ∧
        get_variable "train_pipeline" "loss_history" w'
        = Some (VList (VNum <$> losses init_weights bs)).
Proof.
  intros Hk. destruct (init_bound Append nb Hk) as (w0 & E0 & Hw0).
  unfold run_batches. rewrite E0, bind_some.
  destruct bs as [|b bs].
  - exists w0. split; [done|]. destruct Hw0 as (_ & ps & Hps & _ & _ & Hlh & _).
    unfold get_variable. by rewrite Hps.
  - destruct (first_batch Append b w0 _ _ _ Hw0 eq_refl) as (w1 & E & Hw1).
    rewrite exec_batches_cons, E, bind_some.
    destruct (train_batches_append bs _ _ _ _ Hw1) as (w' & cl' & E' & Hw').
    exists w'. split; [done|]. destruct Hw' as (_ & ps & Hps & _ & _ & Hlh & _).
    unfold get_variable. by rewrite Hps.
Qed.

Lemma losses_length wt bs : length (losses wt bs) = length bs.
Proof. revert wt. induction bs as [|b bs IH]; intros wt; simpl; [done|]. by rewrite IH. Qed.

End Training.

(** The last two steps of the training template: [train_model] saves to
    [current_loss], and [update_variable] follows at once.  The mode ['a']
    is an argument of the token [V('current_loss', mode='a')], the value
    that is read; [update_variable] itself is given no [mode]. *)
Lemma update_variable_is_given_no_mode :
  ∀ nb, nb ∈ notebooks →
    ∃ tm uv, drop 4 (steps_of nb "train_pipeline") = [tm; uv] ∧
             method tm = "train_model" ∧ saved_to tm = Some "current_loss" ∧
             uv = Step "update_variable" [EStr "loss_history"; V_mode "current_loss" "a"] [] ∧
             kwarg (kwargs uv) "mode" = None ∧
             compile uv = Some (UpdateVariable "loss_history" "current_loss" Write).
Proof.
  by_notebook; do 2 eexists; (split; [vm_compute; reflexivity|]); repeat split.
Qed.

(** C9 does not hold of the notebooks.  [train_model] saves the loss of
    every batch to [current_loss], and [update_variable] follows at once, but
    it writes with its default mode: after a training run over one batch or
    more, [loss_history] holds the loss of the last batch alone, not a list
    with one entry for each batch. *)
Theorem C9_loss_history_holds_last_loss {weights : Type} `{!Model weights} :
  ∀ nb, nb ∈ notebooks → ∀ front b,
    ∃ w', train_on nb (front ++ [b]) (bound nb) = Some w' ∧
          heap w' = [trained init_weights (front ++ [b])] ∧
          get_variable "train_pipeline" "current_loss" w'
          = Some (VNum (loss (trained init_weights front) b)) ∧
          get_variable "train_pipeline" "loss_history" w'
          = Some (VNum (loss (trained init_weights front) b)).
Proof.
  by_notebook; intros front b; unfold train_on.
  - change (train_actions Torch.notebook) with (Some (train_acts Write)).
    rewrite bind_some.
    destruct (train_write Torch.notebook front b eq_refl)
      as (w' & E & Hh & ps & Hps & _ & _ & Hlh & Hcl).
    exists w'. unfold get_variable. rewrite Hps. by repeat split.
  - change (train_actions TF.notebook) with (Some (train_acts Write)).
    rewrite bind_some.
    destruct (train_write TF.notebook front b eq_refl)
      as (w' & E & Hh & ps & Hps & _ & _ & Hlh & Hcl).
    exists w'. unfold get_variable. rewrite Hps. by repeat split.
Qed.

Lemma C9_loss_history_holds_last_loss_witness :
  Torch.notebook ∈ notebooks ∧
  ∃ w', train_on Torch.notebook [items 64; items 64; items 64] (bound Torch.notebook)
        = Some w' ∧
        heap w' = [3] ∧
        get_variable "train_pipeline" "current_loss" w' = Some (VNum (64 # 3)) ∧
        get_variable "train_pipeline" "loss_history" w' = Some (VNum (64 # 3)).
Proof.
  split; [exact torch_in_notebooks|].
  exact (C9_loss_history_holds_last_loss _ torch_in_notebooks [items 64; items 64] (items 64)).
Defined.

(** With the mode given to [update_variable] itself the history would be
    kept: one loss for each batch, in the order of the batches. *)
Lemma appending_template_collects_losses {weights : Type} `{!Model weights} :
  ∀ nb, nb ∈ notebooks →
    compile_all (appending_steps nb) = Some (train_acts Append) ∧
    ∀ bs, ∃ w' hist,
      run_batches "train_pipeline" (train_acts Append) bs (bound nb) = Some w' ∧
      get_variable "train_pipeline" "loss_history" w' = Some (VList hist) ∧
      hist = VNum <$> losses init_weights bs ∧ length hist = length bs.
Proof.
  by_notebook; (split; [vm_compute; reflexivity|]); intros bs.
  - destruct (train_append Torch.notebook bs eq_refl) as (w' & E & Hv).
    exists w', (VNum <$> losses init_weights bs).
    by rewrite length_fmap, losses_length.
  - destruct (train_append TF.notebook bs eq_refl) as (w' & E & Hv).
    exists w', (VNum <$> losses init_weights bs).
    by rewrite length_fmap, losses_length.
Qed.

(** ** Dropping the last batch *)

Section DropLast.

(** The order of an epoch is a permutation of the split. *)
Variable permute : nat → list sample → list sample.
Hypothesis permute_perm : ∀ e l, permute e l ≡ₚ l.

(** C10: the training run is called with [drop_last=True], the test run
    with [drop_last=False].  On the engine, when the size of the training
    split is no multiple of the batch size, every training batch is full and
    the items after the last full batch, fewer than a batch, are left out;
    the batches of the test run hold every item of the test split exactly
    once. *)
Theorem C10_drop_last :
  ∀ nb, nb ∈ notebooks →
    ∃ tr te,
      config_of nb "train_pipeline" = Some tr ∧ drop_last tr = true ∧
      config_of nb "test_pipeline" = Some te ∧ drop_last te = false ∧
      n_epochs tr = 1 ∧ n_epochs te = 1 ∧
      ∀ split,
        (length split mod batch_size tr ≠ 0 →
           ∃ rest, permute 0 split = concat (schedule permute tr split) ++ rest ∧
                   0 < length rest < batch_size tr ∧
                   Forall (λ b, length b = batch_size tr) (schedule permute tr split)) ∧
        concat (schedule permute te split) ≡ₚ split.
Proof.
  by_notebook.
  all: do 2 eexists; split; [vm_compute; reflexivity|]; split; [reflexivity|].
  all: split; [vm_compute; reflexivity|]; split; [reflexivity|].
  all: split; [reflexivity|]; split; [reflexivity|].
  all: intros split; rewrite !schedule_one_epoch by reflexivity.
  all: cbn [batch_size drop_last shuffle].
  all: split; [intros Hmod | rewrite epoch_batches_all by lia; apply permute_perm].
  all: destruct (epoch_batches_rest 64 (permute 0 split) ltac:(lia)) as [Hcat Hlen].
  all: pose proof (Permutation_length (permute_perm 0 split)) as Hperm.
  all: eexists; split; [exact Hcat|]; split; [|apply epoch_batches_full].
  all: rewrite Hlen, Hperm; pose proof (Nat.mod_upper_bound (length split) 64); lia.
Qed.

End DropLast.

Lemma C10_drop_last_witness :
  (∀ (e : nat) (l : list sample), reverse l ≡ₚ l) ∧
  Torch.notebook ∈ notebooks ∧
  length (items 130) mod 64 ≠ 0 ∧
  ∃ tr te,
    config_of Torch.notebook "train_pipeline" = Some tr ∧ drop_last tr = true ∧
    config_of Torch.notebook "test_pipeline" = Some te ∧ drop_last te = false ∧
    (∃ rest, reverse (items 130) = concat (schedule (λ _, reverse) tr (items 130)) ++ rest ∧
             0 < length rest < batch_size tr) ∧
    concat (schedule (λ _, reverse) te (items 130)) ≡ₚ items 130.
Proof.
  assert (Hperm : ∀ (e : nat) (l : list sample), reverse l ≡ₚ l)
    by (intros _ l; apply reverse_Permutation).
  assert (Hmod : length (items 130) mod 64 ≠ 0) by (vm_compute; discriminate).
  split; [exact Hperm|]. split; [exact torch_in_notebooks|]. split; [exact Hmod|].
  destruct (C10_drop_last (λ _, reverse) Hperm _ torch_in_notebooks)
    as (tr & te & Etr & Dtr & Ete & Dte & _ & _ & Hsplit).
  exists tr, te. do 4 (split; [assumption|]).
  destruct (Hsplit (items 130)) as [Htrain Htest].
  split; [|exact Htest].
  assert (Hsize : batch_size tr = 64) by (vm_compute in Etr; by injection Etr as <-).
  rewrite Hsize in Htrain. destruct (Htrain Hmod) as (rest & Hcat & Hlen & _).
  exists rest. rewrite Hsize. by split.
Defined.

(** * Further properties of the notebooks *)

Import Static.

(** ** Tools *)

Section DefUseFacts.

Context {A : Type} (uses binds : A → list string).

(** The one-pass check decides [defined_before_use]. *)
Lemma def_use_sound bound l :
  def_use uses binds bound l = true → defined_before_use uses binds bound l.
Proof.
  revert bound. induction l as [|a l IH]; intros bound H i b x Hi Hx; [done|].
  simpl in H. apply andb_true_iff in H as [Ha Hl].
  destruct i as [|i]; simpl in Hi.
  - injection Hi as <-. left.
    rewrite forallb_forall in Ha.
    eapply bool_decide_eq_true_1, Ha. by apply list_elem_of_In.
  - destruct (IH _ Hl i b x Hi Hx) as [Hb|(j & d & Hj & Hd & Hxd)].
    + apply elem_of_app in Hb as [Hb|Hb]; [|by left].
      right. exists 0, a. split; [lia|]. done.
    + right. exists (S j), d. split; [lia|]. done.
Qed.

Lemma def_use_complete bound l :
  defined_before_use uses binds bound l → def_use uses binds bound l = true.
Proof.
  revert bound. induction l as [|a l IH]; intros bound H; [done|].
  simpl. apply andb_true_iff. split.
  - apply forallb_forall. intros x Hx. apply bool_decide_eq_true_2.
    destruct (H 0 a x eq_refl) as [Hb|(j & d & Hj & _)];
      [by apply list_elem_of_In|done|lia].
  - apply IH. intros i b x Hi Hx.
    destruct (H (S i) b x Hi Hx) as [Hb|(j & d & Hj & Hd & Hxd)].
    + left. apply elem_of_app. by right.
    + destruct j as [|j]; simpl in Hd.
      * injection Hd as <-. left. apply elem_of_app. by left.
      * right. exists j, d. split; [lia|]. done.
Qed.

End DefUseFacts.

(** A keyword that is looked up was written in the call; when no keyword is
    repeated, a keyword written in the call is the one looked up. *)
Lemma kwarg_elem_of k n v : kwarg k n = Some v → (n, v) ∈ k.
Proof.
  induction k as [|[m u] k IH]; simpl; [done|].
  destruct (String.eqb m n) eqn:E.
  - apply String.eqb_eq in E as ->. intros [= ->]. left.
  - intros H. right. by apply IH.
Qed.

Lemma kwarg_unique k n v : NoDup k.*1 → (n, v) ∈ k → kwarg k n = Some v.
Proof.
  induction k as [|[m u] k IH]; simpl; intros Hd Hin; [by apply elem_of_nil in Hin|].
  apply NoDup_cons in Hd as [Hm Hd].
  apply elem_of_cons in Hin as [[= -> ->]|Hin].
  - by rewrite String.eqb_refl.
  - destruct (String.eqb m n) eqn:E; [|by apply IH].
    apply String.eqb_eq in E as ->. destruct Hm.
    apply list_elem_of_fmap. by exists (n, v).
Qed.

(** Case analysis on an element of a list that computes. *)
Ltac each_of H :=
  vm_compute in H;
  repeat (apply elem_of_cons in H as [->|H]);
  [ .. | apply elem_of_nil in H; destruct H ].

Ltac each_pair H :=
  vm_compute in H;
  repeat (apply elem_of_cons in H as [[= -> ->]|H]);
  [ .. | apply elem_of_nil in H; destruct H ].

Ltac is_member := vm_compute; repeat constructor.

(** ** Names *)

(** X1: every name a code cell reads is a builtin ([list], [dict]) or is
    bound by an import or an assignment of an earlier statement, in the
    order the cells run. *)
Theorem X1_names_bound_before_use :
  ∀ nb, nb ∈ notebooks → defined_before_use stmt_uses stmt_binds builtins (stmts nb).
Proof. by_notebook; apply def_use_sound; vm_compute; reflexivity. Qed.

Lemma X1_names_bound_before_use_witness :
  Torch.notebook ∈ notebooks ∧
  stmts Torch.notebook !! 13 = Some (SAssign "train_pipeline"
     (ELShift (EName "train_template") (EAttr (EName "dataset") "train"))) ∧
  "train_template" ∈ stmt_uses (SAssign "train_pipeline"
     (ELShift (EName "train_template") (EAttr (EName "dataset") "train"))) ∧
  ("train_template" ∈ builtins ∨
   ∃ j d, j < 13 ∧ stmts Torch.notebook !! j = Some d ∧ "train_template" ∈ stmt_binds d).
Proof.
  assert (Hs : stmts Torch.notebook !! 13 = Some (SAssign "train_pipeline"
     (ELShift (EName "train_template") (EAttr (EName "dataset") "train")))) by reflexivity.
  assert (Hx : "train_template" ∈ stmt_uses (SAssign "train_pipeline"
     (ELShift (EName "train_template") (EAttr (EName "dataset") "train"))))
    by (vm_compute; left).
  split; [exact torch_in_notebooks|]. split; [exact Hs|]. split; [exact Hx|].
  exact (X1_names_bound_before_use _ torch_in_notebooks 13 _ _ Hs Hx).
Defined.

(** X2: the names a notebook binds and never reads are exactly the imports
    [os], [np], [F], [CIFAR10] and [CIFAR100]; every name it assigns is read
    later, and the token [F] is never used. *)
Theorem X2_names_never_used :
  ∀ nb, nb ∈ notebooks → ∀ x,
    x ∈ flat_map stmt_binds (stmts nb) ∧ (x ∉ flat_map stmt_uses (stmts nb))
    ↔ x ∈ ["os"; "np"; "F"; "CIFAR10"; "CIFAR100"].
Proof.
  by_notebook; intros x.
  - change ["os"; "np"; "F"; "CIFAR10"; "CIFAR100"] with
      (filter (λ x, x ∉ flat_map stmt_uses (stmts Torch.notebook))
         (flat_map stmt_binds (stmts Torch.notebook))).
    rewrite list_elem_of_filter. tauto.
  - change ["os"; "np"; "F"; "CIFAR10"; "CIFAR100"] with
      (filter (λ x, x ∉ flat_map stmt_uses (stmts TF.notebook))
         (flat_map stmt_binds (stmts TF.notebook))).
    rewrite list_elem_of_filter. tauto.
Qed.

Lemma X2_names_never_used_witness :
  TF.notebook ∈ notebooks ∧
  ("F" ∈ flat_map stmt_binds (stmts TF.notebook) ∧
   ("F" ∉ flat_map stmt_uses (stmts TF.notebook))
   ↔ "F" ∈ ["os"; "np"; "F"; "CIFAR10"; "CIFAR100"]).
Proof.
  split; [exact tf_in_notebooks|].
  exact (X2_names_never_used _ tf_in_notebooks "F").
Defined.

(** X3: no call of a notebook repeats a keyword and no dict display
    repeats a key; so, for a call on a pipeline, the value written for a
    keyword is the value a lookup of that keyword gives. *)
Theorem X3_keywords_are_not_repeated :
  ∀ nb, nb ∈ notebooks →
    (∀ s ks, s ∈ stmts nb → ks ∈ stmt_keyword_lists s → NoDup ks) ∧
    (∀ s n v, s ∈ sites nb → (n, v) ∈ kwargs (op s) ↔ kwarg (kwargs (op s)) n = Some v).
Proof.
  intros nb Hnb. split.
  - assert (Hall : Forall (λ ks, NoDup ks) (flat_map stmt_keyword_lists (stmts nb))).
    { revert nb Hnb. by_notebook; apply (bool_decide_unpack _); vm_compute; exact I. }
    intros s ks Hs Hk. rewrite Forall_forall in Hall. apply Hall.
    apply list_elem_of_In, in_flat_map. exists s. by rewrite <- !list_elem_of_In.
  - intros s n v Hs. split; [|apply kwarg_elem_of].
    apply kwarg_unique. revert s Hs. revert nb Hnb. by_notebook.
    all: refine (proj1 (Forall_forall _ _) _).
    all: apply (bool_decide_unpack _); vm_compute; exact I.
Qed.

Lemma X3_keywords_are_not_repeated_witness :
  Torch.notebook ∈ notebooks ∧
  Site 18 None (EName "train_pipeline") false Shared.train_run_step ∈ sites Torch.notebook ∧
  (("bar", EBool true) ∈ kwargs Shared.train_run_step
   ↔ kwarg (kwargs Shared.train_run_step) "bar" = Some (EBool true)).
Proof.
  assert (Hs : Site 18 None (EName "train_pipeline") false Shared.train_run_step
               ∈ sites Torch.notebook) by (vm_compute; do 6 right; left).
  split; [exact torch_in_notebooks|]. split; [exact Hs|].
  exact (proj2 (X3_keywords_are_not_repeated _ torch_in_notebooks) _ "bar" (EBool true) Hs).
Defined.

(** ** The execution record *)

(** X4: the code cells of a notebook carry the execution counts 1, 2, ...
    in the order of the cells, and every displayed value carries the count
    of its cell: the outputs are those of one run from top to bottom. *)
Theorem X4_cells_ran_once_in_order :
  ∀ nb, nb ∈ notebooks →
    omap cell_count nb = seq 1 (length (omap cell_count nb)) ∧
    Forall results_numbered nb.
Proof.
  by_notebook; (split; [vm_compute; reflexivity|]).
  all: vm_compute; repeat constructor.
Qed.

Lemma X4_cells_ran_once_in_order_witness :
  TF.notebook ∈ notebooks ∧
  omap cell_count TF.notebook = seq 1 12 ∧ Forall results_numbered TF.notebook.
Proof.
  split; [exact tf_in_notebooks|].
  exact (X4_cells_ran_once_in_order _ tf_in_notebooks).
Defined.

(** ** Pipeline variables *)

(** X5: in every pipeline, a variable that a step names, through a [V]
    token or as the target of [update_variable], is declared by an
    [init_variable] step that comes earlier in the same pipeline; and a
    variable fetched with [get_variable] is declared in the pipeline it is
    fetched from. *)
Theorem X5_variables_declared_before_use :
  ∀ nb, nb ∈ notebooks →
    (∀ p, p ∈ pipelines nb → defined_before_use var_refs var_decls [] (psteps p)) ∧
    (∀ r x, (r, x) ∈ fetches nb → x ∈ flat_map var_decls (steps_of nb r)).
Proof.
  by_notebook; split.
  all: try (intros p Hp; each_of Hp; apply def_use_sound; vm_compute; reflexivity).
  all: intros r x Hrx; each_pair Hrx; is_member.
Qed.

Lemma X5_variables_declared_before_use_witness :
  TF.notebook ∈ notebooks ∧
  ("test_pipeline", "metrics") ∈ fetches TF.notebook ∧
  "metrics" ∈ flat_map var_decls (steps_of TF.notebook "test_pipeline").
Proof.
  assert (Hf : ("test_pipeline", "metrics") ∈ fetches TF.notebook) by (vm_compute; left).
  split; [exact tf_in_notebooks|]. split; [exact Hf|].
  exact (proj2 (X5_variables_declared_before_use _ tf_in_notebooks) _ _ Hf).
Defined.

(** X6: in every pipeline, a variable that a step reads (a [V] token
    outside [save_to]) is written by an earlier step of the same pipeline,
    through [save_to] or [update_variable]; and a variable fetched with
    [get_variable] is written by a step of the pipeline it is fetched
    from. *)
Theorem X6_variables_written_before_read :
  ∀ nb, nb ∈ notebooks →
    (∀ p, p ∈ pipelines nb → defined_before_use var_reads var_writes [] (psteps p)) ∧
    (∀ r x, (r, x) ∈ fetches nb → x ∈ flat_map var_writes (steps_of nb r)).
Proof.
  by_notebook; split.
  all: try (intros p Hp; each_of Hp; apply def_use_sound; vm_compute; reflexivity).
  all: intros r x Hrx; each_pair Hrx; is_member.
Qed.

Lemma X6_variables_written_before_read_witness :
  Torch.notebook ∈ notebooks ∧
  Pipeline "test_pipeline" (declared Torch.test_pipeline_steps) ∈ pipelines Torch.notebook ∧
  declared Torch.test_pipeline_steps !! 5 = Some (Step "gather_metrics" [EStr "class"]
      [("targets", B_ "labels"); ("predictions", V_ "predictions");
       ("fmt", EStr "logits"); ("axis", EInt (-1)); ("save_to", V_mode "metrics" "w")]) ∧
  ∃ j d, j < 5 ∧ declared Torch.test_pipeline_steps !! j = Some d ∧
         "predictions" ∈ var_writes d.
Proof.
  assert (Hp : Pipeline "test_pipeline" (declared Torch.test_pipeline_steps)
               ∈ pipelines Torch.notebook) by (vm_compute; right; left).
  assert (Hs : declared Torch.test_pipeline_steps !! 5 = Some (Step "gather_metrics"
      [EStr "class"]
      [("targets", B_ "labels"); ("predictions", V_ "predictions");
       ("fmt", EStr "logits"); ("axis", EInt (-1)); ("save_to", V_mode "metrics" "w")]))
    by reflexivity.
  split; [exact torch_in_notebooks|]. split; [exact Hp|]. split; [exact Hs|].
  destruct (proj1 (X6_variables_written_before_read _ torch_in_notebooks) _ Hp
              5 _ "predictions" Hs ltac:(vm_compute; left)) as [Hnil|Hex].
  - apply elem_of_nil in Hnil. destruct Hnil.
  - exact Hex.
Defined.

(** X7: the one variable that a pipeline writes and that no step reads and
    no [get_variable] fetches is [loss_history] of the training template. *)
Theorem X7_loss_history_is_never_read :
  ∀ nb, nb ∈ notebooks → ∀ p, p ∈ pipelines nb → ∀ x,
    x ∈ flat_map var_writes (psteps p) ∧ (x ∉ flat_map var_reads (psteps p)) ∧
      (x ∉ fetched_from nb (pname p))
    ↔ pname p = "train_template" ∧ x = "loss_history".
Proof.
  by_notebook; intros p Hp x; each_of Hp.
  all: match goal with |- ?w ∧ ?r ∧ ?f ↔ _ =>
         match w with _ ∈ ?ws =>
         match r with _ ∉ ?rs =>
         match f with _ ∉ ?fs =>
           transitivity (x ∈ filter (λ y, (y ∉ rs) ∧ (y ∉ fs)) ws);
             [rewrite list_elem_of_filter; tauto|]
         end end end end.
  all: vm_compute (filter _ _).
  all: split; [intros H; each_of H; by vm_compute | intros [E ->]; try by vm_compute in E].
  all: is_member.
Qed.

Lemma X7_loss_history_is_never_read_witness :
  Torch.notebook ∈ notebooks ∧
  Pipeline "train_template" Torch.train_template_steps ∈ pipelines Torch.notebook ∧
  "loss_history" ∈ flat_map var_writes Torch.train_template_steps ∧
  ("loss_history" ∉ flat_map var_reads Torch.train_template_steps) ∧
  ("loss_history" ∉ fetched_from Torch.notebook "train_template").
Proof.
  assert (Hp : Pipeline "train_template" Torch.train_template_steps
               ∈ pipelines Torch.notebook) by (vm_compute; left).
  split; [exact torch_in_notebooks|]. split; [exact Hp|].
  exact (proj2 (X7_loss_history_is_never_read _ torch_in_notebooks _ Hp "loss_history")
           (conj eq_refl eq_refl)).
Defined.

(** ** Models, config and inputs *)

(** X8: a model that a step trains or predicts with is given to the
    pipeline by an earlier [init_model] or [import_model] step; a model that
    is imported is built with [init_model] by the pipeline it is imported
    from; and [save_model_now] names a model of the pipeline it is called
    on. *)
Theorem X8_models_exist_where_used :
  ∀ nb, nb ∈ notebooks →
    (∀ p, p ∈ pipelines nb → defined_before_use model_uses model_defs [] (psteps p)) ∧
    (∀ p st n src, p ∈ pipelines nb → st ∈ psteps p → (n, src) ∈ model_imports st →
       n ∈ built_by nb src) ∧
    (∀ s r n, s ∈ sites nb → (r, n) ∈ site_save s →
       n ∈ flat_map model_defs (steps_of nb r)).
Proof.
  by_notebook; split.
  all: try (intros p Hp; each_of Hp; apply def_use_sound; vm_compute; reflexivity).
  all: split.
  all: try (intros p st n src Hp Hst Hi; each_of Hp; each_of Hst; each_pair Hi; is_member).
  all: intros s r n Hs Hsv; each_of Hs; each_pair Hsv; is_member.
Qed.

Lemma X8_models_exist_where_used_witness :
  TF.notebook ∈ notebooks ∧
  Pipeline "test_pipeline" (declared TF.test_pipeline_steps) ∈ pipelines TF.notebook ∧
  Step "import_model" [EStr "conv_nn"; EName "train_pipeline"] []
    ∈ declared TF.test_pipeline_steps ∧
  ("conv_nn", "train_pipeline")
    ∈ model_imports (Step "import_model" [EStr "conv_nn"; EName "train_pipeline"] []) ∧
  "conv_nn" ∈ built_by TF.notebook "train_pipeline".
Proof.
  assert (Hp : Pipeline "test_pipeline" (declared TF.test_pipeline_steps)
               ∈ pipelines TF.notebook) by (vm_compute; right; left).
  assert (Hst : Step "import_model" [EStr "conv_nn"; EName "train_pipeline"] []
                ∈ declared TF.test_pipeline_steps) by (vm_compute; left).
  assert (Hi : ("conv_nn", "train_pipeline")
    ∈ model_imports (Step "import_model" [EStr "conv_nn"; EName "train_pipeline"] []))
    by (vm_compute; left).
  split; [exact tf_in_notebooks|]. split; [exact Hp|]. split; [exact Hst|].
  split; [exact Hi|].
  exact (proj1 (proj2 (X8_models_exist_where_used _ tf_in_notebooks)) _ _ _ _ Hp Hst Hi).
Defined.

(** X9: every config key a step asks for with a [C] token is a key of the
    config its pipeline is built with, [Pipeline(config=config)]; a
    pipeline that starts from a dataset split uses no [C] token. *)
Theorem X9_config_keys_exist :
  ∀ nb, nb ∈ notebooks → ∀ p st k,
    p ∈ pipelines nb → st ∈ psteps p → k ∈ step_refs "C" st →
    k ∈ pipeline_config nb (pname p).
Proof.
  by_notebook; intros p st k Hp Hst Hk; each_of Hp; each_of Hst; each_of Hk; is_member.
Qed.

Lemma X9_config_keys_exist_witness :
  Torch.notebook ∈ notebooks ∧
  Pipeline "train_template" Torch.train_template_steps ∈ pipelines Torch.notebook ∧
  (∃ st, Torch.train_template_steps !! 2 = Some st ∧ "model" ∈ step_refs "C" st) ∧
  "model" ∈ pipeline_config Torch.notebook "train_template".
Proof.
  assert (Hp : Pipeline "train_template" Torch.train_template_steps
               ∈ pipelines Torch.notebook) by (vm_compute; left).
  assert (Hst : Step "init_model" [EStr "dynamic"; C_ "model"; EStr "conv_nn"]
      [("config", EDict [("inputs/images/shape", B_ "image_shape");
                         ("inputs/labels/classes", D_ "num_classes");
                         ("initial_block/inputs", EStr "images")])]
      ∈ Torch.train_template_steps) by (vm_compute; do 2 right; left).
  assert (Hk : "model" ∈ step_refs "C"
     (Step "init_model" [EStr "dynamic"; C_ "model"; EStr "conv_nn"]
      [("config", EDict [("inputs/images/shape", B_ "image_shape");
                         ("inputs/labels/classes", D_ "num_classes");
                         ("initial_block/inputs", EStr "images")])]))
    by (vm_compute; left).
  split; [exact torch_in_notebooks|]. split; [exact Hp|].
  split; [eexists; split; [reflexivity | exact Hk]|].
  exact (X9_config_keys_exist _ torch_in_notebooks _ _ _ Hp Hst Hk).
Defined.

(** X10: the batch components a train or predict step feeds to its model
    are inputs the model's config declares (['inputs/<name>/...']), passed
    by position or under the keyword of the same name; a train step feeds
    every declared input; and the input a block of the model is wired to
    (['initial_block/inputs']) is a declared input. *)
Theorem X10_fed_components_are_model_inputs :
  ∀ nb, nb ∈ notebooks → ∀ p st,
    p ∈ pipelines nb → st ∈ psteps p →
    (∀ x, x ∈ block_inputs (model_config st) → x ∈ declared_inputs (model_config st)) ∧
    ∀ m, m ∈ model_uses st →
      (∀ kw c, (kw, c) ∈ feeds st → c ∈ inputs_of nb m ∧ (kw = None ∨ kw = Some c)) ∧
      (method st = "train_model" → ∀ c, c ∈ inputs_of nb m → c ∈ (feeds st).*2).
Proof.
  by_notebook; intros p st Hp Hst; each_of Hp; each_of Hst.
  all: split; [intros x Hx; each_of Hx; is_member|].
  all: intros m Hm; each_of Hm.
  all: split;
    [ intros kw c Hf; each_pair Hf; (split; [is_member | first [by left | by right]])
    | intros Hmeth c Hc; try discriminate Hmeth; each_of Hc; is_member ].
Qed.

Lemma X10_fed_components_are_model_inputs_witness :
  TF.notebook ∈ notebooks ∧
  Pipeline "train_template" TF.train_template_steps ∈ pipelines TF.notebook ∧
  (∃ st, TF.train_template_steps !! 4 = Some st ∧
         "conv_nn" ∈ model_uses st ∧ (Some "labels", "labels") ∈ feeds st) ∧
  "labels" ∈ inputs_of TF.notebook "conv_nn".
Proof.
  assert (Hp : Pipeline "train_template" TF.train_template_steps
               ∈ pipelines TF.notebook) by (vm_compute; left).
  assert (Hst : Step "train_model" [EStr "conv_nn"]
      [("fetches", EStr "loss"); ("images", B_ "images"); ("labels", B_ "labels");
       ("save_to", V_ "current_loss")] ∈ TF.train_template_steps)
    by (vm_compute; do 4 right; left).
  assert (Hm : "conv_nn" ∈ model_uses (Step "train_model" [EStr "conv_nn"]
      [("fetches", EStr "loss"); ("images", B_ "images"); ("labels", B_ "labels");
       ("save_to", V_ "current_loss")])) by (vm_compute; left).
  assert (Hf : (Some "labels", "labels") ∈ feeds (Step "train_model" [EStr "conv_nn"]
      [("fetches", EStr "loss"); ("images", B_ "images"); ("labels", B_ "labels");
       ("save_to", V_ "current_loss")])) by (vm_compute; right; left).
  split; [exact tf_in_notebooks|]. split; [exact Hp|].
  split; [eexists; split; [reflexivity|]; split; [exact Hm | exact Hf]|].
  exact (proj1 (proj1 (proj2 (X10_fed_components_are_model_inputs _ tf_in_notebooks
                                _ _ Hp Hst) _ Hm) _ _ Hf)).
Defined.

(** ** The two notebooks side by side *)

(** X11: the two notebooks make the same calls on pipelines and on the
    metrics object, in the same cells and in the same order; call by call
    they read and write the same variables, build and use the same models
    and feed the same batch components; and outside [to_array],
    [train_model], [predict_model], [gather_metrics] and [save_model_now]
    the calls are the same, argument by argument. *)
Theorem X11_notebooks_make_the_same_calls :
  Forall2 same_call (sites Torch.notebook) (sites TF.notebook).
Proof.
  vm_compute (sites _).
  repeat (apply Forall2_cons; split;
    [ unfold same_call; repeat match goal with |- _ ∧ _ => split end;
        try reflexivity;
        first [ intros _; reflexivity | intros H; exfalso; apply H; is_member ] |]).
  apply Forall2_nil_2.
Qed.
